(** * system_upgrade.py: the cross-reboot upgrade state machine

    A shallow embedding of [system_upgrade.py] (the dnf system-upgrade
    plugin): the [State] object and its JSON file, the magic symlink and
    its flag file, the [check_*] guards, the [run_*] and [transaction_*]
    phase bodies, and the order in which the dnf command line drives them.

    Python code that mutates [self.state], touches the file system and may
    raise is embedded in a state-and-exception monad over a [world]: the
    file system, the in-memory [_data] dictionary of the [State] object,
    a trace of the calls made to external collaborators and the module's
    [Plymouth] object.  Where Python 2 and Python 3 differ, the code is
    read as Python 3 runs it. *)

From stdpp Require Import gmap strings list fin_maps pretty.

Open Scope string_scope.

(** ** Module-level constants *)

Definition DEFAULT_DATADIR : string := "/var/lib/dnf/system-upgrade".
Definition MAGIC_SYMLINK : string := "/system-update".
(** [SYSTEMD_FLAG_FILE] is [os.path.join(MAGIC_SYMLINK, '.dnf-system-upgrade')]:
    the entry of that name in whatever directory the magic symlink leads to. *)
Definition SYSTEMD_FLAG_NAME : string := ".dnf-system-upgrade".

Definition NO_KERNEL_MSG : string := "No new kernel packages were found.".
Definition RELEASEVER_MSG : string :=
  "Need a --releasever greater than the current system version.".
Definition DOWNLOAD_FINISHED_MSG : string :=
  "Download complete! Use 'dnf %s reboot' to start the upgrade.".

(** ** Python values held by the state record

    The fields of the record are strings (statuses, paths, release
    versions), booleans (distro-sync) or [None]. *)

Inductive value : Type :=
| VNone
| VBool (b : bool)
| VStr (s : string).

#[global] Instance value_eq_dec : EqDecision value.
Proof. solve_decision. Defined.

(** Truth value of a Python object, as tested by [if v:]. *)
Definition truthy (v : value) : bool :=
  match v with
  | VNone => false
  | VBool b => b
  | VStr s => negb (String.eqb s "")
  end.

(** ["%s" % v] *)
Definition py_str (v : value) : string :=
  match v with
  | VNone => "None"
  | VBool true => "True"
  | VBool false => "False"
  | VStr s => s
  end.

(** [v == 'literal'] *)
Definition eq_str (v : value) (lit : string) : bool :=
  bool_decide (v = VStr lit).

(** The line feed, ["\n"]. *)
Definition LF : string := String (Ascii.ascii_of_nat 10) "".

Definition startswith (pre s : string) : bool := String.prefix pre s.

Definition endswith (suf s : string) : bool :=
  let n := String.length s in
  let k := String.length suf in
  (k <=? n)%nat && String.eqb (String.substring (n - k) k s) suf.

(** [os.path.join(a, b)] for a directory [a] and an entry name [b]. *)
Definition path_join (a b : string) : string :=
  if startswith "/" b then b
  else if String.eqb a "" then b
  else if endswith "/" a then a +:+ b
  else a +:+ "/" +:+ b.

(** The dictionary [State._data]: section name to option name to value. *)
Abbreviation record := (gmap string (gmap string value)).

(** ** Exceptions *)

Inductive errno : Type :=
  ENOENT | EEXIST | EINVAL | ENOTDIR | EISDIR | ENAMETOOLONG.

(** [open] raises [IOError]; the [os] functions raise [OSError] (one and
    the same class in Python 3, where the only call inside the [try] of
    [State._read] that can raise it is still [open]); [json.load] raises
    [ValueError] on text that is not JSON. *)
Inductive exn : Type :=
| CliError (msg : string)      (* dnf.cli.CliError *)
| Error (msg : string)         (* dnf.exceptions.Error *)
| SystemExit (code : Z)
| IOError (e : errno)
| OSError (e : errno)
| ValueError
| TypeError.

#[global] Instance errno_eq_dec : EqDecision errno.
Proof. solve_decision. Defined.
#[global] Instance exn_eq_dec : EqDecision exn.
Proof. solve_decision. Defined.

Definition is_IOError (e : exn) : bool :=
  match e with IOError _ => true | _ => false end.

(** The guards deny a phase by raising [dnf.cli.CliError] with a message,
    or leave quietly with [SystemExit(0)]; these are the classified
    outcomes.  Anything else is a traceback. *)
Definition classified (e : exn) : bool :=
  match e with
  | CliError _ => true
  | SystemExit _ => true
  | _ => false
  end.

(** ** The file system

    Three places matter: the state file [State.statefile], the path
    [MAGIC_SYMLINK], and the directories that can serve as data
    directory.  The directory [/var/lib/dnf] that holds the state file
    belongs to dnf itself and is taken to exist, so the [ensure_dir] call
    in [State.write] has nothing to do.  Data directory paths are taken
    to be different from the state file and the magic symlink. *)

(** What the state file holds, as [json.load] sees it: a JSON document of
    the shape [State.write] produces (sections of options with string,
    boolean or null values), or text that [json.load] rejects (an empty
    file, a truncated document).  [json.load] of what [json.dump] wrote
    gives the dictionary back, which [Doc] builds in.  Files that hold
    JSON of another shape are not part of the model. *)
Inductive content : Type :=
| Doc (d : record)
| NotJson.

(** What sits at [MAGIC_SYMLINK]. *)
Inductive marker_node : Type :=
| MLink (target : string)
| MDir (entries : gmap string string)
| MFile.

(** What sits at a data-directory path: a directory with named files in
    it, or something that is not a directory. *)
Inductive node : Type :=
| Dir (entries : gmap string string)
| File.

#[global] Instance content_eq_dec : EqDecision content.
Proof. solve_decision. Defined.
#[global] Instance marker_node_eq_dec : EqDecision marker_node.
Proof. solve_decision. Defined.
#[global] Instance node_eq_dec : EqDecision node.
Proof. solve_decision. Defined.

Record filesystem : Type := mkFs {
  statefile : option content;
  marker : option marker_node;
  nodes : gmap string node
}.

Definition set_statefile (c : option content) (f : filesystem) : filesystem :=
  mkFs c (marker f) (nodes f).
Definition set_marker (m : option marker_node) (f : filesystem) : filesystem :=
  mkFs (statefile f) m (nodes f).
Definition set_nodes (n : gmap string node) (f : filesystem) : filesystem :=
  mkFs (statefile f) (marker f) n.

(** ** Calls to external collaborators, recorded in order *)

Inductive event : Type :=
| LogInfo (msg : string)                 (* log.info *)
| SystemctlReboot (disk : filesystem)    (* check_call(["systemctl", "reboot"]),
                                            with the disk as the restart finds it *)
| DistroSync                             (* base.distro_sync() *)
| UpgradeAll                             (* base.upgrade_all() *)
| AddRemoteRpm (path : string)           (* base.add_remote_rpm *)
| Configure (setting : string) (v : value). (* cli.demands, base.conf, repos *)

(** ** Plymouth output helpers

    [PlymouthOutput] on its own: the object is its [alive] flag and its
    [_last_args] dictionary; [ran] keeps the command lines handed to
    [subprocess.call], in order.  Whether the n-th run of the binary
    exits with status 0 is the environment's to say: [answers n].
    [_plymouth] below is the method where [subprocess.call] comes back
    with an exit status; [_plymouth_exn], after it, is the method with
    the case where [subprocess.call] raises, and it is the one the
    command runs on. *)

Module PlymouthOutput.

Definition PLYMOUTH : string := "/usr/bin/plymouth".

Record t : Type := mk {
  alive : bool;
  _last_args : gmap string (list string);
  ran : list (list string)
}.

Definition __init__ : t := mk true ∅ [].

Definition _plymouth (answers : nat → bool) (cmd : string) (args : list string)
    (p : t) : bool * t :=
  let dupe_cmd := bool_decide (Some args = _last_args p !! cmd) in
  if (alive p && negb dupe_cmd) || String.eqb cmd "--ping"
  then let status0 := answers (length (ran p)) in
       (status0, mk status0 (<[cmd := args]> (_last_args p))
                    (ran p ++ [PLYMOUTH :: cmd :: args]))
  else (alive p, p).

Definition ping (answers : nat → bool) : t → bool * t :=
  _plymouth answers "--ping" [].

Definition message (answers : nat → bool) (msg : string) : t → bool * t :=
  _plymouth answers "display-message" ["--text"; msg].

Definition set_mode (answers : nat → bool) (mode : string) : t → bool * t :=
  _plymouth answers "change-mode" ["--" +:+ mode].

Definition progress (answers : nat → bool) (percent : Z) : t → bool * t :=
  _plymouth answers "system-update" ["--progress"; pretty percent].

(** The calls a user of the object can make, and a run of them. *)
Inductive request : Type :=
| Ping
| Message (msg : string)
| SetMode (mode : string)
| Progress (percent : Z).

Definition serve (answers : nat → bool) (r : request) : t → bool * t :=
  match r with
  | Ping => ping answers
  | Message msg => message answers msg
  | SetMode mode => set_mode answers mode
  | Progress percent => progress answers percent
  end.

Definition serve_all (answers : nat → bool) (rs : list request) (p : t) : t :=
  foldl (λ p r, (serve answers r p).2) p rs.

(** [subprocess.call] does not always come back with an exit status: it
    raises [OSError] when the binary cannot be started (there is no
    [/usr/bin/plymouth]).  [_plymouth] has no handler for that, so the
    exception leaves [_plymouth] before [alive] and [_last_args] are
    assigned.  [spawn n] says how the n-th run goes: [None] when the
    binary cannot be started, [Some b] when it runs and [b] tells whether
    its exit status is 0. *)
Definition would_run (cmd : string) (args : list string) (p : t) : bool :=
  (alive p && negb (bool_decide (Some args = _last_args p !! cmd)))
  || String.eqb cmd "--ping".

Definition exit0 (spawn : nat → option bool) (n : nat) : bool :=
  default false (spawn n).

Definition _plymouth_exn (spawn : nat → option bool) (cmd : string)
    (args : list string) (p : t) : (exn + bool) * t :=
  if would_run cmd args p
  then match spawn (length (ran p)) with
       | None => (inl (OSError ENOENT), p)
       | Some _ => let '(b, p') := _plymouth (exit0 spawn) cmd args p in (inr b, p')
       end
  else (inr (alive p), p).

End PlymouthOutput.

(** ** The world and the monad *)

Record world : Type := mkWorld {
  fs : filesystem;
  _data : record;               (* self.state._data *)
  trace : list event;
  plymouth : PlymouthOutput.t   (* the module's Plymouth object *)
}.

Definition set_fs (f : filesystem) (w : world) : world :=
  mkWorld f (_data w) (trace w) (plymouth w).
Definition set_data (d : record) (w : world) : world :=
  mkWorld (fs w) d (trace w) (plymouth w).
Definition emit (ev : event) (w : world) : world :=
  mkWorld (fs w) (_data w) (trace w ++ [ev]) (plymouth w).
Definition set_plymouth (p : PlymouthOutput.t) (w : world) : world :=
  mkWorld (fs w) (_data w) (trace w) p.

Inductive result (A : Type) : Type :=
| Ok (a : A)
| Raise (e : exn).
Arguments Ok {A} a.
Arguments Raise {A} e.

Definition M (A : Type) : Type := world → result A * world.

Definition ret {A} (a : A) : M A := λ w, (Ok a, w).
Definition raise {A} (e : exn) : M A := λ w, (Raise e, w).
Definition bind {A B} (m : M A) (k : A → M B) : M B :=
  λ w, match m w with
       | (Ok a, w') => k a w'
       | (Raise e, w') => (Raise e, w')
       end.
Definition modify (f : world → world) : M unit := λ w, (Ok tt, f w).
Definition gets {A} (f : world → A) : M A := λ w, (Ok (f w), w).
Definition when (b : bool) (m : M unit) : M unit := if b then m else ret tt.

Notation "x <- m ;; k" := (bind m (λ x, k))
  (at level 100, m at next level, right associativity).
Notation "m ;; k" := (bind m (λ _, k))
  (at level 100, right associativity).

(** [try: body / except IOError: handler] *)
Definition try_except_IOError {A} (body handler : M A) : M A :=
  λ w, match body w with
       | (Raise e, w') => if is_IOError e then handler w' else (Raise e, w')
       | r => r
       end.

Definition log_info (msg : string) : M unit := modify (emit (LogInfo msg)).
Definition call (ev : event) : M unit := modify (emit ev).

(** ** File-system primitives *)

(** [os.path.exists(p)] and [os.path.isdir(p)] on a data-directory path. *)
Definition path_exists (p : string) : M bool :=
  gets (λ w, bool_decide (is_Some (nodes (fs w) !! p))).
Definition path_isdir (p : string) : M bool :=
  gets (λ w, match nodes (fs w) !! p with Some (Dir _) => true | _ => false end).

(** [os.path.lexists(MAGIC_SYMLINK)] *)
Definition lexists_magic : M bool :=
  gets (λ w, bool_decide (is_Some (marker (fs w)))).

(** [os.readlink(MAGIC_SYMLINK)] *)
Definition readlink_magic : M string :=
  λ w, match marker (fs w) with
       | Some (MLink t) => (Ok t, w)
       | Some _ => (Raise (OSError EINVAL), w)
       | None => (Raise (OSError ENOENT), w)
       end.

(** What is wrong with a string as the target of a link, if anything:
    Python refuses a string with a NUL in it, the kernel an empty one
    and one of [PATH_MAX] bytes or more.  In each case no link is made. *)
Definition has_nul (s : string) : bool :=
  existsb (λ a, Ascii.eqb a Ascii.zero) (String.list_ascii_of_string s).

Definition link_target_error (t : string) : option exn :=
  if has_nul t then Some ValueError
  else if String.eqb t "" then Some (OSError ENOENT)
  else if (4096 <=? String.length t)%nat then Some (OSError ENAMETOOLONG)
  else None.

(** [os.symlink(target, MAGIC_SYMLINK)] *)
Definition symlink_magic (target : value) : M unit :=
  λ w, match target with
       | VStr t =>
           match link_target_error t with
           | Some e => (Raise e, w)
           | None =>
               match marker (fs w) with
               | None => (Ok tt, set_fs (set_marker (Some (MLink t)) (fs w)) w)
               | Some _ => (Raise (OSError EEXIST), w)
               end
           end
       | _ => (Raise TypeError, w)
       end.

(** [os.unlink(MAGIC_SYMLINK)] *)
Definition unlink_magic : M unit :=
  λ w, match marker (fs w) with
       | None => (Raise (OSError ENOENT), w)
       | Some (MDir _) => (Raise (OSError EISDIR), w)
       | Some _ => (Ok tt, set_fs (set_marker None (fs w)) w)
       end.

(** [dnf.yum.misc.unlink_f]: [os.unlink] that does not die when the file
    is not there. *)
Definition unlink_f_magic : M unit :=
  λ w, match unlink_magic w with
       | (Raise (OSError ENOENT), w') | (Raise (OSError ENOTDIR), w') => (Ok tt, w')
       | r => r
       end.

(** The directory in which [SYSTEMD_FLAG_FILE] lives: the path goes
    through [MAGIC_SYMLINK]. *)
Inductive flag_dir : Type :=
| InTarget (t : string) (entries : gmap string string)
| InMagic (entries : gmap string string).

Definition resolve_flag_dir (f : filesystem) : exn + flag_dir :=
  match marker f with
  | None => inl (IOError ENOENT)
  | Some MFile => inl (IOError ENOTDIR)
  | Some (MDir es) => inr (InMagic es)
  | Some (MLink t) =>
      match nodes f !! t with
      | None => inl (IOError ENOENT)
      | Some File => inl (IOError ENOTDIR)
      | Some (Dir es) => inr (InTarget t es)
      end
  end.

(** Store [text] in the flag file: [open(SYSTEMD_FLAG_FILE, 'w')] with an
    empty [text], [flagfile.write(text)] afterwards. *)
Definition put_flag (text : string) : M unit :=
  λ w, match resolve_flag_dir (fs w) with
       | inl e => (Raise e, w)
       | inr (InTarget t es) =>
           let es' := <[SYSTEMD_FLAG_NAME := text]> es in
           (Ok tt, set_fs (set_nodes (<[t := Dir es']> (nodes (fs w))) (fs w)) w)
       | inr (InMagic es) =>
           let es' := <[SYSTEMD_FLAG_NAME := text]> es in
           (Ok tt, set_fs (set_marker (Some (MDir es')) (fs w)) w)
       end.

(** What reading [SYSTEMD_FLAG_FILE] gives, if it can be read. *)
Definition flag_file (f : filesystem) : option string :=
  match resolve_flag_dir f with
  | inr (InTarget _ es) | inr (InMagic es) => es !! SYSTEMD_FLAG_NAME
  | inl _ => None
  end.

(** [dnf.util.ensure_dir], from the dnf library: [os.makedirs], accepting
    a directory that is already there. *)
Definition ensure_dir (p : string) : M unit :=
  λ w, match nodes (fs w) !! p with
       | None => (Ok tt, set_fs (set_nodes (<[p := Dir ∅]> (nodes (fs w))) (fs w)) w)
       | Some (Dir _) => (Ok tt, w)
       | Some File => (Raise (OSError EEXIST), w)
       end.

(** [os.listdir] *)
Definition listdir (p : string) : M (list string) :=
  λ w, match nodes (fs w) !! p with
       | None => (Raise (OSError ENOENT), w)
       | Some File => (Raise (OSError ENOTDIR), w)
       | Some (Dir es) => (Ok (map_to_list es).*1, w)
       end.

(** [dnf.util.clear_dir], from the dnf library: "Remove all files and
    dirs under path".  It lists [path] with [os.listdir], which raises
    [OSError] when [path] is not an existing directory, and removes every
    entry it finds. *)
Definition clear_dir (p : string) : M unit :=
  _ <- listdir p ;;
  modify (λ w, set_fs (set_nodes (<[p := Dir ∅]> (nodes (fs w))) (fs w)) w).

(** ** Miscellaneous helper functions *)

Definition reboot : M unit := λ w, (Ok tt, emit (SystemctlReboot (fs w)) w).

(** By the time the plugin runs, the command line has been parsed
    ([opts]) and dnf has its configuration ([base.conf]); the outcome of
    dnf's own checks is part of the surroundings. *)
Inductive action : Type := Download | Clean | Reboot | Upgrade.

Record command : Type := mkCommand {
  opts_action : action;
  opts_datadir : string;            (* --datadir, default DEFAULT_DATADIR *)
  opts_distro_sync : bool;          (* --distro-sync *)
  conf_releasever : value;          (* base.conf.releasever *)
  detect_releasever : value;        (* dnf.rpm.detect_releasever(conf.installroot) *)
  gpgkey_ok : bool;                 (* dnf.cli.commands.checkGPGKey passes *)
  enabled_repo : bool;              (* dnf.cli.commands.checkEnabledRepo passes *)
  basecmd : string;
  cwd : string;                     (* the current directory of the process *)
  plymouth_spawn : nat → option bool; (* how the runs of the plymouth binary go *)
  display : PlymouthOutput.t → PlymouthOutput.t
    (* what the calls of PlymouthTransactionDisplay, made while dnf runs
       the upgrade transaction, leave of the Plymouth object *)
}.

(** Where the code hands [self.state.datadir] to [os.listdir] and
    [os.path.join] it does not check that it is a string (Python 3):
    [os.listdir(None)] lists the current directory, a boolean is taken
    for a file descriptor, which is not one of a directory, and
    [os.path.join] raises [TypeError] on anything but a string. *)
Definition listdir_value (c : command) (v : value) : M (list string) :=
  match v with
  | VStr s => listdir s
  | VNone => listdir (cwd c)
  | VBool _ => raise (OSError ENOTDIR)
  end.

Definition join_value (v : value) (name : string) : M string :=
  match v with
  | VStr d => ret (path_join d name)
  | _ => raise TypeError
  end.

(** [dnf.util.clear_dir(v)]: its [os.listdir(v)], then an [os.path.join]
    for each entry it goes on to remove. *)
Definition clear_dir_value (c : command) (v : value) : M unit :=
  match v with
  | VStr s => clear_dir s
  | VNone => files <- listdir (cwd c) ;;
             if bool_decide (files = []) then ret tt else raise TypeError
  | VBool _ => raise (OSError ENOTDIR)
  end.

Definition checkReleaseVer (c : command) : M unit :=
  if bool_decide (detect_releasever c = conf_releasever c)
  then raise (CliError RELEASEVER_MSG)
  else ret tt.

Definition checkDataDir (datadir : string) : M unit :=
  ex <- path_exists datadir ;;
  isd <- path_isdir datadir ;;
  if ex && negb isd then raise (CliError "--datadir: File exists") else ret tt.

Definition checkGPGKey (c : command) : M unit :=
  if gpgkey_ok c then ret tt else raise (CliError "GPG keys are not installed").
Definition checkEnabledRepo (c : command) : M unit :=
  if enabled_repo c then ret tt else raise (CliError "There are no enabled repos.").

(** ** State object - for tracking upgrade state between runs *)

Module State.

(** [open(self.statefile)] *)
Definition open_r : M content :=
  λ w, match statefile (fs w) with
       | Some c => (Ok c, w)
       | None => (Raise (IOError ENOENT), w)
       end.

(** [json.load] *)
Definition json_load (c : content) : M record :=
  match c with
  | Doc d => ret d
  | NotJson => raise ValueError
  end.

Definition _read : M unit :=
  try_except_IOError
    (c <- open_r ;; d <- json_load c ;; modify (set_data d))
    (modify (set_data ∅)).

Definition __init__ : M unit :=
  modify (set_data ∅) ;; _read.

(** [write] in the steps the file system sees, after an [ensure_dir] of
    [/var/lib/dnf] that finds the directory in place:
    [open(self.statefile, 'w')] creates the file or cuts it to length
    zero, then [json.dump] fills it.  Until the dump is complete the file
    holds a proper prefix of a JSON object, which is not JSON. *)
Definition open_w (f : filesystem) : filesystem :=
  set_statefile (Some NotJson) f.
Definition json_dump (d : record) (f : filesystem) : filesystem :=
  set_statefile (Some (Doc d)) f.
Definition write_steps (d : record) : list (filesystem → filesystem) :=
  [open_w; json_dump d].
Definition run_steps (steps : list (filesystem → filesystem))
    (f : filesystem) : filesystem :=
  foldl (λ f step, step f) f steps.

Definition write : M unit :=
  modify (λ w, set_fs (run_steps (write_steps (_data w)) (fs w)) w).

(** The file system a [write] of [d] leaves behind when the process is
    killed after [n] of its steps. *)
Definition interrupted_write (n : nat) (d : record) (f : filesystem) : filesystem :=
  run_steps (take n (write_steps d)) f.

Definition clear : M unit :=
  ex <- gets (λ w, bool_decide (is_Some (statefile (fs w)))) ;;
  when ex (modify (λ w, set_fs (set_statefile None (fs w)) w)) ;;
  _read.

Definition __exit__ (exc_type : option exn) : M unit :=
  match exc_type with
  | None => write
  | Some _ => ret tt
  end.

(** [with self.state: body].  [__enter__] returns the object itself;
    [__exit__] returns [None], so an exception of the body goes on up. *)
Definition with_ {A} (body : M A) : M A :=
  λ w, match body w with
       | (Ok a, w1) =>
           match __exit__ None w1 with
           | (Ok _, w2) => (Ok a, w2)
           | (Raise e, w2) => (Raise e, w2)
           end
       | (Raise e, w1) =>
           match __exit__ (Some e) w1 with
           | (Ok _, w2) => (Raise e, w2)
           | (Raise e', w2) => (Raise e', w2)
           end
       end.

(** [self._data.setdefault(section, {})]: the section's dictionary, put
    into [_data] first when it is not there. *)
Definition setdefault (sec : string) (d : record) : record * gmap string value :=
  match d !! sec with
  | Some s => (d, s)
  | None => (<[sec := ∅]> d, ∅)
  end.

Definition setprop (sec opt : string) (v : value) : M unit :=
  modify (λ w, let '(d, s) := setdefault sec (_data w) in
               set_data (<[sec := <[opt := v]> s]> d) w).

Definition getprop (sec opt : string) : M value :=
  λ w, let '(d, s) := setdefault sec (_data w) in
       (Ok (default VNone (s !! opt)), set_data d w).

Record property : Type := mkProperty {
  get : M value;
  set : value → M unit
}.

Definition _prop (sec opt : string) : property :=
  mkProperty (getprop sec opt) (setprop sec opt).

Definition download_status : property := _prop "download" "status".
Definition datadir : property := _prop "download" "datadir".
Definition releasever : property := _prop "download" "releasever".

Definition upgrade_status : property := _prop "upgrade" "status".
Definition distro_sync : property := _prop "upgrade" "distro-sync".

End State.

(** The record on disk, as the next invocation will load it. *)
Definition persisted (f : filesystem) : option record :=
  match statefile f with
  | Some (Doc d) => Some d
  | _ => None
  end.

(** A field of a record, [None] when the section or the option is
    missing. *)
Definition field (sec opt : string) (d : record) : value :=
  default VNone (d !! sec ≫= (.!! opt)).

(** ** The command *)

(** [Plymouth.set_mode], [Plymouth.progress], [Plymouth.message] on the
    module's [Plymouth] object: each goes through [_plymouth], which
    filters the call or runs the binary, and lets the [OSError] of
    [subprocess.call] through when the binary cannot be started. *)
Definition Plymouth__plymouth (c : command) (cmd : string) (args : list string)
    : M bool :=
  λ w, match PlymouthOutput._plymouth_exn (plymouth_spawn c) cmd args (plymouth w) with
       | (inl e, p) => (Raise e, set_plymouth p w)
       | (inr b, p) => (Ok b, set_plymouth p w)
       end.
Definition Plymouth_message (c : command) (msg : string) : M bool :=
  Plymouth__plymouth c "display-message" ["--text"; msg].
Definition Plymouth_set_mode (c : command) (mode : string) : M bool :=
  Plymouth__plymouth c "change-mode" ["--" +:+ mode].
Definition Plymouth_progress (c : command) (percent : Z) : M bool :=
  Plymouth__plymouth c "system-update" ["--progress"; pretty percent].

(** *** configure_*: set up action-specific demands *)

Definition demand (name : string) : M unit := call (Configure name (VBool true)).

Definition configure_download (c : command) : M unit :=
  demand "demands.root_user" ;;
  demand "demands.resolving" ;;
  demand "demands.available_repos" ;;
  demand "demands.sack_activation" ;;
  call (Configure "repos.pkgdir" (VStr (opts_datadir c))) ;;
  call (Configure "conf.tsflags" (VStr "test")).

Definition configure_reboot (c : command) : M unit :=
  demand "demands.root_user".

Definition configure_upgrade (c : command) : M unit :=
  demand "demands.root_user" ;;
  demand "demands.resolving" ;;
  demand "demands.sack_activation" ;;
  dd <- State.get State.datadir ;;
  call (Configure "repos.pkgdir" dd) ;;
  demand "demands.cacheonly" ;;
  demand "conf.assumeyes" ;;
  demand "demands.transaction_display".

Definition configure_clean (c : command) : M unit :=
  demand "demands.root_user".

(** *** check_*: do any action-specific checks *)

Definition check_download (c : command) : M unit :=
  checkGPGKey c ;;
  checkEnabledRepo c ;;
  checkReleaseVer c ;;
  checkDataDir (opts_datadir c).

Definition check_reboot (c : command) : M unit :=
  st <- State.get State.download_status ;;
  when (negb (eq_str st "complete"))
       (raise (CliError "system is not ready for upgrade")) ;;
  ex <- lexists_magic ;;
  when ex (raise (CliError "upgrade is already scheduled")).

Definition check_upgrade (c : command) : M unit :=
  st <- State.get State.upgrade_status ;;
  when (negb (eq_str st "ready"))
       (raise (CliError ("use '" +:+ basecmd c +:+ " reboot' to begin the upgrade"))) ;;
  target <- readlink_magic ;;
  dd <- State.get State.datadir ;;
  when (negb (bool_decide (VStr target = dd)))
       (log_info "another upgrade tool is running. exiting quietly." ;;
        raise (SystemExit 0)).

(** *** run_*: run the action/prep the transaction *)

Definition run_reboot (c : command) : M unit :=
  (* make the magic symlink *)
  dd <- State.get State.datadir ;;
  symlink_magic dd ;;
  (* write releasever into the flag file so it can be read by systemd *)
  put_flag "" ;;
  rv <- State.get State.releasever ;;
  put_flag ("RELEASEVER=" +:+ py_str rv +:+ LF) ;;
  (* set upgrade_status so that the upgrade can run *)
  State.with_ (State.set State.upgrade_status (VStr "ready")) ;;
  reboot.

Definition run_download (c : command) : M unit :=
  (* Mark everything in the world for upgrade/sync *)
  (if opts_distro_sync c then call DistroSync else call UpgradeAll) ;;
  when (bool_decide (opts_datadir c = DEFAULT_DATADIR))
       (ensure_dir (opts_datadir c)) ;;
  State.with_
    (State.set State.download_status (VStr "downloading") ;;
     State.set State.releasever (conf_releasever c) ;;
     State.set State.datadir (VStr (opts_datadir c))).

(** The loop of [run_upgrade] over [os.listdir(self.state.datadir)];
    [self.state.datadir] is read again at each [os.path.join]. *)
Fixpoint add_rpms (files : list string) : M unit :=
  match files with
  | [] => ret tt
  | f :: rest =>
      (if endswith ".rpm" f
       then dd <- State.get State.datadir ;;
            path <- join_value dd f ;;
            call (AddRemoteRpm path)
       else ret tt) ;;
      add_rpms rest
  end.

Definition run_upgrade (c : command) : M unit :=
  (* Delete symlink ASAP to avoid reboot loops *)
  unlink_f_magic ;;
  (* change the upgrade status (so we can detect crashed upgrades later) *)
  State.with_ (State.set State.upgrade_status (VStr "incomplete")) ;;
  (* reset the splash mode and let the user know we're running *)
  Plymouth_set_mode c "updates" ;;
  Plymouth_progress c 0 ;;
  Plymouth_message c "Starting system upgrade. This will take a while." ;;
  (* add the downloaded RPMs to the sack *)
  dd <- State.get State.datadir ;;
  files <- listdir_value c dd ;;
  add_rpms files ;;
  (* set up the upgrade transaction *)
  ds <- State.get State.distro_sync ;;
  if truthy ds then call DistroSync else call UpgradeAll.

Definition run_clean (c : command) : M unit :=
  dd <- State.get State.datadir ;;
  when (truthy dd)
       (log_info "Cleaning up downloaded data..." ;;
        dd' <- State.get State.datadir ;;
        clear_dir_value c dd') ;;
  State.clear.

(** *** transaction_*: do stuff after a successful transaction *)

(** [any(p.name.startswith('kernel') for p in downloads)] *)
Definition has_kernel (install_set : list string) : bool :=
  existsb (startswith "kernel") install_set.

Definition transaction_download (c : command) (install_set : list string) : M unit :=
  (* sanity check: we got a kernel, right? *)
  when (negb (has_kernel install_set)) (raise (Error NO_KERNEL_MSG)) ;;
  (* Okay! Write out the state so the upgrade can use it. *)
  State.with_
    (State.set State.download_status (VStr "complete") ;;
     State.set State.distro_sync (VBool (opts_distro_sync c))) ;;
  log_info DOWNLOAD_FINISHED_MSG. (* with self.base.basecmd for the %s *)

Definition transaction_upgrade (c : command) : M unit :=
  Plymouth_message c "Upgrade complete! Cleaning up and rebooting..." ;;
  run_clean c ;;
  reboot.

(** *** Dispatch on [opts.action]

    [_call_sub(name)] looks up the method [name + '_' + action] and calls
    it when there is one; there is no [check_clean], no
    [transaction_reboot] and no [transaction_clean]. *)

Definition configure (c : command) : M unit :=
  match opts_action c with
  | Download => configure_download c
  | Reboot => configure_reboot c
  | Upgrade => configure_upgrade c
  | Clean => configure_clean c
  end.

Definition doCheck (c : command) : M unit :=
  match opts_action c with
  | Download => check_download c
  | Reboot => check_reboot c
  | Upgrade => check_upgrade c
  | Clean => ret tt
  end.

Definition run (c : command) : M unit :=
  match opts_action c with
  | Download => run_download c
  | Reboot => run_reboot c
  | Upgrade => run_upgrade c
  | Clean => run_clean c
  end.

Definition run_transaction (c : command) (install_set : list string) : M unit :=
  match opts_action c with
  | Download => transaction_download c install_set
  | Upgrade => transaction_upgrade c
  | Reboot | Clean => ret tt
  end.

(** ** One invocation, as the dnf command line drives it

    dnf builds the command object (which loads the state), then calls
    [configure], [doCheck] and [run]; when the command demanded
    resolving, dnf resolves and runs the transaction itself, and calls
    [run_transaction] only when that succeeded. *)

Inductive transaction_outcome : Type :=
| TxFailed (e : exn)
| TxDone (install_set : list string).

Definition resolving (a : action) : bool :=
  match a with
  | Download | Upgrade => true
  | Reboot | Clean => false
  end.

(** [configure_upgrade] hands dnf a [PlymouthTransactionDisplay], which
    calls [Plymouth.progress] and [Plymouth.message] while the
    transaction runs: a transaction that came through leaves the
    [Plymouth] object as those calls made it ([display]); a call that
    raises makes the transaction fail. *)
Definition transaction (c : command) (tx : transaction_outcome) : M unit :=
  match tx with
  | TxFailed e => raise e
  | TxDone install_set =>
      match opts_action c with
      | Upgrade =>
          modify (λ w, set_plymouth (display c (plymouth w)) w) ;;
          run_transaction c install_set
      | _ => run_transaction c install_set
      end
  end.

(** A phase, from the guard on. *)
Definition phase (c : command) (tx : transaction_outcome) : M unit :=
  doCheck c ;;
  run c ;;
  when (resolving (opts_action c)) (transaction c tx).

Definition invoke (c : command) (tx : transaction_outcome) : M unit :=
  State.__init__ ;;
  configure c ;;
  phase c tx.

(** The process starts with no state object and an empty trace. *)
Definition boot (f : filesystem) : world :=
  mkWorld f ∅ [] PlymouthOutput.__init__.

(** The value of a field on disk, as the next invocation will read it: a
    missing file reads as the empty record. *)
Definition on_disk (sec opt : string) (f : filesystem) : value :=
  match persisted f with
  | Some d => field sec opt d
  | None => VNone
  end.

(** What [setdefault] and an assignment do to the dictionary. *)
Definition touched (sec : string) (d : record) : record :=
  (State.setdefault sec d).1.
Definition assign (sec opt : string) (v : value) (d : record) : record :=
  let '(d', s) := State.setdefault sec d in <[sec := <[opt := v]> s]> d'.

(** A run of assignments [self.state.<field> = value]. *)
Definition mutations (ms : list (string * string * value)) : M unit :=
  foldr (λ '(sec, opt, v) k, State.setprop sec opt v ;; k) (ret tt) ms.


(** A commit is atomic when an interruption, wherever it falls, leaves in
    the state file either what was there before or the full new record. *)
Definition atomic_write : Prop :=
  ∀ (n : nat) (d : record) (f : filesystem),
    statefile (State.interrupted_write n d f) = statefile f
    ∨ statefile (State.interrupted_write n d f) = Some (Doc d).

(** The properties of the state object. *)
Definition properties : list State.property :=
  [State.download_status; State.datadir; State.releasever;
   State.upgrade_status; State.distro_sync].

(** [m] leaves the observation [π] of the world as it finds it, whether it
    returns or raises. *)
Definition frame {A X} (π : world → X) (m : M A) : Prop :=
  ∀ w, π (m w).2 = π w.

(** An observation that looks at the file system only. *)
Class FsOnly {X} (π : world → X) : Prop :=
  fs_only : ∀ w w', fs w = fs w' → π w = π w'.

Definition the_marker (w : world) : option marker_node := marker (fs w).
Definition the_nodes (w : world) : gmap string node := nodes (fs w).

Definition STALE_MSG : string :=
  "another upgrade tool is running. exiting quietly.".

(** The external transaction step of a download fails: dnf's transaction
    raises, or it ends with an install set without a kernel and
    [transaction_download] raises. *)
Definition download_fails (tx : transaction_outcome) : Prop :=
  match tx with
  | TxFailed _ => True
  | TxDone install_set => has_kernel install_set = false
  end.

(** The record [run_download] commits. *)
Definition downloading_record (c : command) (d : record) : record :=
  assign "download" "datadir" (VStr (opts_datadir c))
    (assign "download" "releasever" (conf_releasever c)
       (assign "download" "status" (VStr "downloading") d)).

(** The data directory on record, when there is one to purge, names a
    directory that exists. *)
Definition recorded_datadir_is_dir (f : filesystem) : Prop :=
  truthy (on_disk "download" "datadir" f) = true →
  ∃ p es, on_disk "download" "datadir" f = VStr p
          ∧ nodes f !! p = Some (Dir es).

Definition CLEAN_MSG : string := "Cleaning up downloaded data...".

(** A run of assignments, on the dictionary. *)
Definition assign_all (ms : list (string * string * value)) (d : record) : record :=
  foldl (λ d '(sec, opt, v), assign sec opt v d) d ms.

(** The record [transaction_download] commits. *)
Definition complete_of (c : command) (d : record) : record :=
  assign "upgrade" "distro-sync" (VBool (opts_distro_sync c))
    (assign "download" "status" (VStr "complete") d).

(** What [run_upgrade] does once it has told plymouth: it lists the data
    directory, hands the packages in it to dnf and marks the world. *)
Abbreviation sack_setup c :=
  (dd <- State.get State.datadir ;;
   files <- listdir_value c dd ;;
   add_rpms files ;;
   ds <- State.get State.distro_sync ;;
   if truthy ds then call DistroSync else call UpgradeAll).

(** What [run_upgrade] asks of the [Plymouth] object before it starts. *)
Definition upgrade_banner : list PlymouthOutput.request :=
  [PlymouthOutput.SetMode "updates";
   PlymouthOutput.Progress 0;
   PlymouthOutput.Message "Starting system upgrade. This will take a while."].

(** ** Sample inputs *)

Definition fresh_fs : filesystem := mkFs None None ∅.

Definition sample_command (a : action) : command :=
  mkCommand a DEFAULT_DATADIR false (VStr "40") (VStr "39") true true
            "system-upgrade" "/root" (λ _, Some true) id.

Definition complete_record : record :=
  <["upgrade" := <["distro-sync" := VBool false]> ∅]>
  (<["download" := <["status" := VStr "complete"]>
                   (<["releasever" := VStr "40"]>
                   (<["datadir" := VStr DEFAULT_DATADIR]> ∅))]> ∅).

Definition ready_record : record :=
  assign "upgrade" "status" (VStr "ready") complete_record.

(** A download into [--datadir=/mnt/upgrade], a directory that does not
    exist, whose transaction fails in dnf; and the file system it leaves. *)
Definition custom_command (a : action) : command :=
  mkCommand a "/mnt/upgrade" false (VStr "40") (VStr "39") true true
            "system-upgrade" "/root" (λ _, Some true) id.

Definition after_failed_custom_download : filesystem :=
  fs (invoke (custom_command Download) (TxFailed (Error "depsolve"))
             (boot fresh_fs)).2.

(** The system after a successful download into the default directory,
    with one package fetched, and after the reboot phase that follows. *)
Definition downloaded_fs : filesystem :=
  mkFs (Some (Doc complete_record)) None
       {[ DEFAULT_DATADIR := Dir {[ "kernel-core-6.8.rpm" := "rpm" ]} ]}.

Definition armed_fs : filesystem :=
  fs (invoke (sample_command Reboot) (TxDone []) (boot downloaded_fs)).2.

(** The same armed system, where another tool has since put its own link
    at [MAGIC_SYMLINK]. *)
Definition stale_fs : filesystem :=
  set_marker (Some (MLink "/var/cache/PackageKit/prepared-update")) armed_fs.

(** * Properties *)

Ltac wsimpl :=
  cbn [fs _data trace plymouth set_data set_fs set_plymouth set_marker
       set_nodes set_statefile statefile marker nodes emit fst snd].

(** ** The dictionary *)

Lemma field_touched sec' sec opt (d : record) :
  field sec opt (touched sec' d) = field sec opt d.
Proof.
  unfold touched, State.setdefault, field.
  destruct (d !! sec') as [s|] eqn:E; [done|]. simpl.
  destruct (decide (sec' = sec)) as [->|Hne].
  - by rewrite lookup_insert_eq, E.
  - by rewrite lookup_insert_ne.
Qed.

Lemma assign_insert sec opt v (d : record) :
  assign sec opt v d = <[sec := <[opt := v]> (default ∅ (d !! sec))]> d.
Proof.
  unfold assign, State.setdefault.
  destruct (d !! sec) as [s|]; simpl; [done|].
  by rewrite insert_insert_eq.
Qed.

Lemma field_assign_eq sec opt v (d : record) :
  field sec opt (assign sec opt v d) = v.
Proof.
  rewrite assign_insert. unfold field.
  rewrite lookup_insert_eq. simpl. by rewrite lookup_insert_eq.
Qed.

Lemma field_assign_ne sec opt sec' opt' v (d : record) :
  (sec, opt) ≠ (sec', opt') →
  field sec' opt' (assign sec opt v d) = field sec' opt' d.
Proof.
  intros Hne. rewrite assign_insert. unfold field.
  destruct (decide (sec = sec')) as [->|Hs].
  - rewrite lookup_insert_eq. simpl.
    rewrite lookup_insert_ne by congruence.
    by destruct (d !! sec').
  - by rewrite lookup_insert_ne.
Qed.

Lemma field_empty sec opt : field sec opt ∅ = VNone.
Proof. unfold field. by rewrite lookup_empty. Qed.

(** ** Stepping through the monad *)

Lemma getprop_eq sec opt w :
  State.getprop sec opt w =
  (Ok (field sec opt (_data w)), set_data (touched sec (_data w)) w).
Proof.
  unfold State.getprop, touched, field, State.setdefault.
  by destruct (_data w !! sec).
Qed.

Lemma setprop_eq sec opt v w :
  State.setprop sec opt v w = (Ok tt, set_data (assign sec opt v (_data w)) w).
Proof.
  unfold State.setprop, assign, modify.
  by destruct (State.setdefault sec (_data w)).
Qed.

Lemma write_eq w :
  State.write w = (Ok tt, set_fs (set_statefile (Some (Doc (_data w))) (fs w)) w).
Proof. reflexivity. Qed.

Lemma mutations_eq ms w :
  ∃ d, mutations ms w = (Ok tt, set_data d w).
Proof.
  revert w. induction ms as [|[[sec opt] v] ms IH]; intros w.
  - exists (_data w). by destruct w.
  - simpl. unfold bind. rewrite setprop_eq.
    destruct (IH (set_data (assign sec opt v (_data w)) w)) as [d Hd].
    exists d. by rewrite Hd.
Qed.

(** ** The scoped state handle *)

(** A block that raises leaves the file system as the block left it:
    [__exit__] writes nothing. *)
Lemma with_raise {A} (body : M A) w e w1 :
  body w = (Raise e, w1) → State.with_ body w = (Raise e, w1).
Proof. intros H. unfold State.with_. by rewrite H. Qed.

(** A block that ends normally is followed by [write]. *)
Lemma with_ok {A} (body : M A) w a w1 :
  body w = (Ok a, w1) →
  State.with_ body w =
  (Ok a, set_fs (set_statefile (Some (Doc (_data w1))) (fs w1)) w1).
Proof. intros H. unfold State.with_. by rewrite H. Qed.

(** C2. The scoped state handle commits exactly on a clean exit.  For
    every world and every run of field assignments inside
    [with self.state:], a block that ends normally leaves the assigned
    dictionary in the state file (and touches nothing else on disk),
    while a block that ends with an exception, whichever it is, leaves
    the whole file system, and so the persisted record, as it was before
    the block was entered; the exception goes on to the caller. *)
Theorem C2_scoped_commit (w : world) (ms : list (string * string * value)) :
  (∃ w', State.with_ (mutations ms) w = (Ok tt, w')
         ∧ _data w' = _data (mutations ms w).2
         ∧ persisted (fs w') = Some (_data w')
         ∧ marker (fs w') = marker (fs w)
         ∧ nodes (fs w') = nodes (fs w))
  ∧ (∀ e : exn, ∃ w', State.with_ (mutations ms ;; @raise unit e) w = (Raise e, w')
         ∧ fs w' = fs w
         ∧ persisted (fs w') = persisted (fs w)).
Proof.
  destruct (mutations_eq ms w) as [d Hd]. split.
  - eexists. split; [by apply with_ok|].
    rewrite Hd. by destruct w.
  - intros e. exists (set_data d w). split; [|by destruct w].
    apply with_raise. unfold bind, raise. by rewrite Hd.
Qed.

(** ** Loading and committing the record *)

Lemma init_eq w :
  State.__init__ w =
  match statefile (fs w) with
  | None => (Ok tt, set_data ∅ w)
  | Some (Doc d) => (Ok tt, set_data d w)
  | Some NotJson => (Raise ValueError, set_data ∅ w)
  end.
Proof.
  unfold State.__init__, State._read, try_except_IOError, bind, modify,
    State.open_r.
  destruct w as [f d0 tr pl]; simpl.
  by destruct (statefile f) as [[d|]|].
Qed.

(** C7, as the code has it.  Loading gives the empty state when the
    state file is absent, the record in the file when the file holds one,
    and after a commit that is the record committed last.  A state file
    that holds no JSON document makes the load fail with the
    [ValueError] of [json.load], which [_read] does not catch: the
    failure is not an [IOError], and no empty state is handed out.  The
    handler of [_read] does not look at the error number: were [open] to
    fail with any other [IOError], the state would load as empty as
    well. *)
Theorem C7_load (w : world) :
  match statefile (fs w) with
  | None => State.__init__ w = (Ok tt, set_data ∅ w)
  | Some (Doc d) => State.__init__ w = (Ok tt, set_data d w)
  | Some NotJson =>
      ∃ w', State.__init__ w = (Raise ValueError, w')
            ∧ is_IOError ValueError = false
  end
  ∧ State.__init__ (boot (fs (State.write w).2)) =
    (Ok tt, set_data (_data w) (boot (fs (State.write w).2)))
  ∧ ∀ e : errno,
      try_except_IOError
        (c <- raise (IOError e) ;; d <- State.json_load c ;; modify (set_data d))
        (modify (set_data ∅)) w
      = (Ok tt, set_data ∅ w).
Proof.
  split; [|split].
  - rewrite init_eq. destruct (statefile (fs w)) as [[d|]|]; eauto.
  - by rewrite init_eq.
  - done.
Qed.

(** C7 fails as stated: a corrupt state file makes the load fail with
    [ValueError], not with [IOError]. *)
Lemma C7_counterexample :
  State.__init__ (boot (mkFs (Some NotJson) None ∅))
  = (Raise ValueError, boot (mkFs (Some NotJson) None ∅))
  ∧ ValueError ≠ IOError ENOENT
  ∧ is_IOError ValueError = false.
Proof. by split. Qed.

(** C3, as the code has it.  [write] works on the state file in place:
    it cuts the file to length zero and then dumps the record into it;
    there is no temporary file and no rename.  Run to its end it leaves
    exactly the full record in the state file and nothing else changed.
    Interrupted before its first step it has done nothing; interrupted
    between the two steps it leaves a torn state file, which the next
    load rejects. *)
Theorem C3_write_in_place (d : record) (f : filesystem) (w : world) :
  State.interrupted_write 0 d f = f
  ∧ State.interrupted_write 1 d f = set_statefile (Some NotJson) f
  ∧ (∀ n, State.interrupted_write (S (S n)) d f = set_statefile (Some (Doc d)) f)
  ∧ State.write w = (Ok tt, set_fs (State.interrupted_write 2 (_data w) (fs w)) w)
  ∧ persisted (fs (State.write w).2) = Some (_data w)
  ∧ (State.__init__ (boot (State.interrupted_write 1 d f))).1 = Raise ValueError.
Proof.
  repeat split; try done.
  intros n. unfold State.interrupted_write. by destruct n.
Qed.

(** C3 fails as stated: a commit of the ready record over the complete
    record, interrupted after the file was opened for writing, leaves a
    state file that holds neither of the two. *)
Lemma C3_counterexample : ¬ atomic_write.
Proof.
  intros H.
  destruct (H 1%nat ready_record (mkFs (Some (Doc complete_record)) None ∅))
    as [H1|H1]; discriminate H1.
Qed.

(** ** Reading an unset field *)

(** C10. With no state file present the state object loads as the empty
    dictionary; every property then reads as [None] without raising, and
    the guards that compare a property with a status deny the phase with
    a [CliError]. *)
Theorem C10_unset_fields_read_None (f : filesystem) (c : command) :
  statefile f = None →
  ∃ w, State.__init__ (boot f) = (Ok tt, w)
       ∧ _data w = ∅
       ∧ Forall (λ p, (State.get p w).1 = Ok VNone) properties
       ∧ (∀ sec opt, (State.getprop sec opt w).1 = Ok VNone)
       ∧ (check_reboot c w).1 = Raise (CliError "system is not ready for upgrade")
       ∧ (∃ msg, (check_upgrade c w).1 = Raise (CliError msg)).
Proof.
  intros Hf. exists (boot f).
  split; [by rewrite init_eq; simpl; rewrite Hf|].
  split; [done|].
  split; [by repeat constructor|].
  split; [intros sec opt; rewrite getprop_eq; simpl; by rewrite field_empty|].
  split; [done|]. by eexists.
Qed.

(** A system that never ran the plugin. *)
Lemma C10_witness :
  ∃ w, State.__init__ (boot fresh_fs) = (Ok tt, w)
       ∧ _data w = ∅
       ∧ Forall (λ p, (State.get p w).1 = Ok VNone) properties
       ∧ (∀ sec opt, (State.getprop sec opt w).1 = Ok VNone)
       ∧ (check_reboot (sample_command Reboot) w).1
         = Raise (CliError "system is not ready for upgrade")
       ∧ (∃ msg, (check_upgrade (sample_command Reboot) w).1 = Raise (CliError msg)).
Proof. apply (C10_unset_fields_read_None fresh_fs); reflexivity. Defined.

(** ** The guards *)

Lemma check_reboot_eq c w :
  check_reboot c w =
  let w1 := set_data (touched "download" (_data w)) w in
  if eq_str (field "download" "status" (_data w)) "complete"
  then match marker (fs w) with
       | None => (Ok tt, w1)
       | Some _ => (Raise (CliError "upgrade is already scheduled"), w1)
       end
  else (Raise (CliError "system is not ready for upgrade"), w1).
Proof.
  unfold check_reboot, bind, State.get, State.download_status, State._prop.
  rewrite getprop_eq.
  destruct (eq_str _ _); simpl; [|done].
  unfold lexists_magic, gets; simpl.
  by destruct (marker (fs w)).
Qed.

Lemma check_upgrade_eq c w :
  check_upgrade c w =
  let w1 := set_data (touched "upgrade" (_data w)) w in
  let w2 := set_data (touched "download" (touched "upgrade" (_data w))) w in
  if eq_str (field "upgrade" "status" (_data w)) "ready"
  then match marker (fs w) with
       | Some (MLink t) =>
           if bool_decide (VStr t = field "download" "datadir" (_data w))
           then (Ok tt, w2)
           else (Raise (SystemExit 0), emit (LogInfo STALE_MSG) w2)
       | Some _ => (Raise (OSError EINVAL), w1)
       | None => (Raise (OSError ENOENT), w1)
       end
  else (Raise (CliError ("use '" +:+ basecmd c +:+ " reboot' to begin the upgrade")), w1).
Proof.
  unfold check_upgrade, bind, State.get, State.upgrade_status, State.datadir,
    State._prop.
  rewrite getprop_eq.
  destruct (eq_str _ _); simpl; [|done].
  unfold readlink_magic; simpl.
  destruct (marker (fs w)) as [[t|es|]|]; try done.
  rewrite getprop_eq. simpl. rewrite field_touched.
  by destruct (bool_decide _).
Qed.

Lemma check_download_eq c w :
  check_download c w = (Ok tt, w)
  ∨ ∃ msg, check_download c w = (Raise (CliError msg), w).
Proof.
  unfold check_download, bind, checkGPGKey, checkEnabledRepo, checkReleaseVer,
    checkDataDir, path_exists, path_isdir, gets, bind.
  destruct (gpgkey_ok c); [|by right; eexists].
  destruct (enabled_repo c); [|by right; eexists].
  destruct (bool_decide _); [by right; eexists|].
  cbn [ret]. unfold ret.
  destruct (_ && _); [by right; eexists|by left].
Qed.

Lemma check_download_datadir c w :
  (check_download c w).1 = Ok tt → nodes (fs w) !! opts_datadir c ≠ Some File.
Proof.
  unfold check_download, bind, checkGPGKey, checkEnabledRepo, checkReleaseVer,
    checkDataDir, path_exists, path_isdir, gets, bind.
  destruct (gpgkey_ok c); [|done].
  destruct (enabled_repo c); [|done].
  destruct (bool_decide (detect_releasever c = _)); [done|].
  unfold ret. intros H Hn. rewrite Hn in H.
  rewrite bool_decide_eq_true_2 in H by eauto. done.
Qed.

(** [configure] only talks to dnf: it leaves the file system alone and
    changes no field of the state. *)
Lemma configure_eq c w :
  ∃ d evs, configure c w = (Ok tt, mkWorld (fs w) d (trace w ++ evs) (plymouth w))
           ∧ ∀ sec opt, field sec opt d = field sec opt (_data w).
Proof.
  destruct w as [f d tr pl].
  unfold configure; destruct (opts_action c).
  - exists d. eexists. split; [|done].
    unfold configure_download, demand, call, bind, modify, emit; simpl.
    by rewrite <- !(assoc_L app).
  - exists d. eexists. split; [|done].
    unfold configure_clean, demand, call, bind, modify, emit; simpl. done.
  - exists d. eexists. split; [|done].
    unfold configure_reboot, demand, call, bind, modify, emit; simpl. done.
  - exists (touched "download" d). eexists.
    split; [|intros; apply field_touched].
    unfold configure_upgrade, demand, call, bind, modify, emit, State.get,
      State.datadir, State._prop; simpl.
    rewrite getprop_eq; simpl.
    by rewrite <- !(assoc_L app).
Qed.

(** Once the state is loaded and [configure] has run, the invocation is
    the phase, on the file system it found and with the fields of the
    record it loaded. *)
Lemma invoke_eq c tx f :
  statefile f ≠ Some NotJson →
  ∃ d evs, invoke c tx (boot f)
           = phase c tx (mkWorld f d evs PlymouthOutput.__init__)
           ∧ ∀ sec opt, field sec opt d = on_disk sec opt f.
Proof.
  intros Hf. unfold invoke, bind. rewrite init_eq.
  assert (∃ d0, (match statefile (fs (boot f)) with
                 | None => (Ok tt, set_data ∅ (boot f))
                 | Some (Doc d) => (Ok tt, set_data d (boot f))
                 | Some NotJson => (Raise ValueError, set_data ∅ (boot f))
                 end) = (Ok tt, mkWorld f d0 [] PlymouthOutput.__init__)
                ∧ ∀ sec opt, field sec opt d0 = on_disk sec opt f)
    as (d0 & -> & Hd0).
  { unfold on_disk, persisted. simpl.
    destruct (statefile f) as [[d|]|]; [by exists d|done|].
    exists ∅. split; [done|]. intros. apply field_empty. }
  destruct (configure_eq c (mkWorld f d0 [] PlymouthOutput.__init__))
    as (d & evs & -> & Hd).
  exists d, evs. split; [done|].
  intros. by rewrite Hd, Hd0.
Qed.

(** C4 fails on the code.  The persisted state says
    [upgrade.status == 'ready'] while nothing sits at [MAGIC_SYMLINK]:
    [check_upgrade] passes its first test and then [os.readlink] raises
    [OSError], which is neither a [CliError] nor the quiet exit.
    ([check_reboot] asks [os.path.lexists] before it decides.) *)
Theorem C4_check_upgrade_no_marker (tx : transaction_outcome) :
  let f := mkFs (Some (Doc ready_record)) None ∅ in
  (invoke (sample_command Upgrade) tx (boot f)).1 = Raise (OSError ENOENT)
  ∧ on_disk "upgrade" "status" f = VStr "ready"
  ∧ marker f = None
  ∧ classified (OSError ENOENT) = false.
Proof. by vm_compute. Qed.

(** Away from that case the guards are total: each one lets the phase
    through or stops it with a [CliError] or the quiet exit. *)
Lemma guards_classified c w :
  (opts_action c = Upgrade →
   field "upgrade" "status" (_data w) = VStr "ready" →
   ∃ t, marker (fs w) = Some (MLink t)) →
  match (doCheck c w).1 with
  | Ok _ => True
  | Raise e => classified e = true
  end.
Proof.
  intros Hlink. unfold doCheck.
  destruct (opts_action c) eqn:Ha.
  - by destruct (check_download_eq c w) as [->|[msg ->]].
  - done.
  - rewrite check_reboot_eq. cbn zeta.
    destruct (eq_str _ _); [|done]. by destruct (marker (fs w)).
  - rewrite check_upgrade_eq. cbn zeta. unfold eq_str.
    case_bool_decide as Hst; [|done].
    destruct (Hlink eq_refl Hst) as [t ->].
    by case_bool_decide.
Qed.

(** The stale run, from the guard on: the phase stops in [check_upgrade]
    with [SystemExit(0)] after one [log.info], and the file system is as
    it was. *)
Lemma stale_phase c tx w t :
  opts_action c = Upgrade →
  field "upgrade" "status" (_data w) = VStr "ready" →
  marker (fs w) = Some (MLink t) →
  field "download" "datadir" (_data w) ≠ VStr t →
  ∃ d, phase c tx w
       = (Raise (SystemExit 0),
          mkWorld (fs w) d (trace w ++ [LogInfo STALE_MSG]) (plymouth w)).
Proof.
  intros Ha Hst Hm Hdd.
  unfold phase, bind, doCheck. rewrite Ha, check_upgrade_eq, Hst, Hm. simpl.
  rewrite bool_decide_eq_false_2 by congruence.
  by eexists.
Qed.

(** C5. Stale-run detection.  The persisted state says
    [upgrade.status == 'ready'] and [MAGIC_SYMLINK] is a link whose target
    is not the recorded [download.datadir]: the upgrade invocation ends in
    the guard with [SystemExit(0)], the exit code of success, after
    logging one informational message; [run_upgrade] is never entered,
    and the state file, the marker and the directories are what they were
    before. *)
Theorem C5_stale_run_quiet_exit (c : command) (tx : transaction_outcome)
    (f : filesystem) (d : record) (t : string) :
  opts_action c = Upgrade →
  statefile f = Some (Doc d) →
  field "upgrade" "status" d = VStr "ready" →
  marker f = Some (MLink t) →
  field "download" "datadir" d ≠ VStr t →
  ∃ w', invoke c tx (boot f) = (Raise (SystemExit 0), w')
        ∧ fs w' = f
        ∧ last (trace w') = Some (LogInfo STALE_MSG)
        ∧ classified (SystemExit 0) = true.
Proof.
  intros Ha Hf Hst Hm Hdd.
  destruct (invoke_eq c tx f) as (d0 & evs & -> & Hd0); [by rewrite Hf|].
  assert (Hon : ∀ sec opt, on_disk sec opt f = field sec opt d).
  { intros. unfold on_disk, persisted. by rewrite Hf. }
  destruct (stale_phase c tx (mkWorld f d0 evs PlymouthOutput.__init__) t)
    as [d' ->]; simpl; try done.
  - by rewrite Hd0, Hon.
  - by rewrite Hd0, Hon.
  - eexists. split; [done|]. simpl. by rewrite last_snoc.
Qed.

(** ** What a step leaves alone *)

Section Frame.
Context {X : Type} (π : world → X).

Lemma frame_ret {A} (a : A) : frame π (ret a).
Proof. by intros w. Qed.

Lemma frame_raise {A} e : frame π (@raise A e).
Proof. by intros w. Qed.

Lemma frame_bind {A B} (m : M A) (k : A → M B) :
  frame π m → (∀ a, frame π (k a)) → frame π (bind m k).
Proof.
  intros Hm Hk w. unfold bind.
  specialize (Hm w). destruct (m w) as [[a|e] w1]; simpl in *; [|done].
  by rewrite Hk.
Qed.

Lemma frame_when b (m : M unit) : frame π m → frame π (when b m).
Proof. destruct b; [done|by intros _ w]. Qed.

Lemma frame_if {A} (b : bool) (m1 m2 : M A) :
  frame π m1 → frame π m2 → frame π (if b then m1 else m2).
Proof. by destruct b. Qed.

Lemma frame_modify (g : world → world) :
  (∀ w, π (g w) = π w) → frame π (modify g).
Proof. intros Hg w. apply Hg. Qed.

Lemma frame_gets {A} (g : world → A) : frame π (gets g).
Proof. by intros w. Qed.

Lemma frame_try {A} (body handler : M A) :
  frame π body → frame π handler → frame π (try_except_IOError body handler).
Proof.
  intros Hb Hh w. unfold try_except_IOError.
  specialize (Hb w). destruct (body w) as [[a|e] w1]; simpl in *; [done|].
  destruct (is_IOError e); [by rewrite Hh|done].
Qed.

End Frame.

#[global] Instance the_marker_fs_only : FsOnly the_marker.
Proof. intros w w' H. unfold the_marker. by rewrite H. Qed.
#[global] Instance the_nodes_fs_only : FsOnly the_nodes.
Proof. intros w w' H. unfold the_nodes. by rewrite H. Qed.

Section FrameFs.
Context {X : Type} (π : world → X) `{!FsOnly π}.

Lemma frame_fs {A} (m : M A) : (∀ w, fs (m w).2 = fs w) → frame π m.
Proof. intros H w. by apply fs_only. Qed.

Lemma frame_getprop sec opt : frame π (State.getprop sec opt).
Proof. apply frame_fs. intros w. by rewrite getprop_eq. Qed.

Lemma frame_setprop sec opt v : frame π (State.setprop sec opt v).
Proof. apply frame_fs. intros w. by rewrite setprop_eq. Qed.

Lemma frame_call ev : frame π (call ev).
Proof. by apply frame_fs. Qed.

Lemma frame_log_info msg : frame π (log_info msg).
Proof. by apply frame_fs. Qed.

Lemma frame_join_value v name : frame π (join_value v name).
Proof. apply frame_fs. intros w. by destruct v. Qed.

Lemma frame_listdir p : frame π (listdir p).
Proof.
  apply frame_fs. intros w. unfold listdir.
  by destruct (nodes (fs w) !! p) as [[es|]|].
Qed.

Lemma frame_listdir_value c v : frame π (listdir_value c v).
Proof. destruct v; [apply frame_listdir|by intros w|apply frame_listdir]. Qed.

Lemma frame_Plymouth c cmd args : frame π (Plymouth__plymouth c cmd args).
Proof.
  apply frame_fs. intros w. unfold Plymouth__plymouth.
  by destruct (PlymouthOutput._plymouth_exn _ _ _ _) as [[e|b] p].
Qed.

Lemma frame_reboot : frame π reboot.
Proof. by apply frame_fs. Qed.

Lemma frame_readlink_magic : frame π readlink_magic.
Proof.
  apply frame_fs. intros w. unfold readlink_magic.
  by destruct (marker (fs w)) as [[t|es|]|].
Qed.

Lemma frame_with {A} (body : M A) :
  frame π body → frame π State.write → frame π (State.with_ body).
Proof.
  intros Hb Hw w. unfold State.with_, State.__exit__.
  specialize (Hb w). destruct (body w) as [[a|e] w1]; [|exact Hb].
  specialize (Hw w1). destruct (State.write w1) as [[[]|e] w2];
    cbn [snd] in *; by rewrite Hw.
Qed.

End FrameFs.

Lemma marker_write : frame the_marker State.write.
Proof. by intros w. Qed.


(** [clear] removes the state file, if there is one, and reads the empty
    state back. *)
Lemma clear_eq w :
  State.clear w = (Ok tt, set_data ∅ (set_fs (set_statefile None (fs w)) w)).
Proof. destruct w as [[[c|] m n] d tr pl]; reflexivity. Qed.

Lemma marker_clear : frame the_marker State.clear.
Proof. intros w. by rewrite clear_eq. Qed.

Lemma nodes_clear : frame the_nodes State.clear.
Proof. intros w. by rewrite clear_eq. Qed.

Lemma marker_clear_dir p : frame the_marker (clear_dir p).
Proof.
  intros w. unfold clear_dir, bind, listdir.
  by destruct (nodes (fs w) !! p) as [[es|]|].
Qed.

Lemma marker_clear_dir_value c v : frame the_marker (clear_dir_value c v).
Proof.
  destruct v as [|b|s]; [|by intros w|apply marker_clear_dir].
  intros w. unfold clear_dir_value, bind, listdir.
  destruct (nodes (fs w) !! cwd c) as [[es|]|]; try done.
  by destruct (bool_decide _).
Qed.

Ltac frame_step :=
  first
    [ apply frame_bind; [|intros ?]
    | apply frame_when
    | apply frame_ret
    | apply frame_raise
    | apply frame_getprop; solve [typeclasses eauto]
    | apply frame_setprop; solve [typeclasses eauto]
    | apply frame_call; solve [typeclasses eauto]
    | apply frame_log_info; solve [typeclasses eauto]
    | apply frame_join_value; solve [typeclasses eauto]
    | apply frame_listdir; solve [typeclasses eauto]
    | apply frame_listdir_value; solve [typeclasses eauto]
    | apply frame_Plymouth; solve [typeclasses eauto]
    | apply frame_reboot; solve [typeclasses eauto]
    | apply frame_readlink_magic; solve [typeclasses eauto]
    | apply frame_gets
    | apply frame_with; [solve [typeclasses eauto]| |]
    | apply frame_if ].

Ltac solve_frame lemmas := repeat first [lemmas | frame_step].

(** ** The marker *)

Lemma marker_add_rpms files : frame the_marker (add_rpms files).
Proof.
  induction files as [|f files IH]; simpl.
  - apply frame_ret.
  - solve_frame ltac:(apply IH).
Qed.

Lemma marker_run_clean c : frame the_marker (run_clean c).
Proof.
  unfold run_clean.
  solve_frame ltac:(first [apply marker_clear_dir_value | apply marker_clear]).
Qed.

Lemma unlink_f_magic_eq w :
  (∀ es, marker (fs w) ≠ Some (MDir es)) →
  ∃ w', unlink_f_magic w = (Ok tt, w')
        ∧ marker (fs w') = None
        ∧ statefile (fs w') = statefile (fs w)
        ∧ nodes (fs w') = nodes (fs w)
        ∧ _data w' = _data w
        ∧ trace w' = trace w
        ∧ plymouth w' = plymouth w.
Proof.
  intros Hm. unfold unlink_f_magic, unlink_magic.
  destruct (marker (fs w)) as [[t|es|]|] eqn:E.
  - by eexists.
  - by destruct (Hm es).
  - by eexists.
  - by eexists.
Qed.

(** From its first step on, [run_upgrade] runs without the marker,
    whatever happens next. *)
Lemma run_upgrade_disarms c w :
  (∀ es, marker (fs w) ≠ Some (MDir es)) →
  the_marker (run_upgrade c w).2 = None.
Proof.
  intros Hm. destruct (unlink_f_magic_eq w Hm) as (w' & Hu & Hm' & _).
  unfold run_upgrade. unfold bind at 1. rewrite Hu.
  match goal with |- the_marker (?rest w').2 = None =>
    assert (Hrest : frame the_marker rest)
  end.
  { solve_frame ltac:(first [apply marker_write | apply marker_add_rpms]). }
  by rewrite Hrest.
Qed.

Lemma marker_transaction_upgrade c tx :
  opts_action c = Upgrade → frame the_marker (transaction c tx).
Proof.
  intros Ha. unfold transaction, run_transaction. rewrite Ha.
  destruct tx as [e|install_set]; [apply frame_raise|].
  apply frame_bind; [by apply frame_modify|intros _].
  unfold transaction_upgrade, Plymouth_message.
  solve_frame ltac:(apply marker_run_clean).
Qed.

(** ** The reboot phase *)

Lemma put_flag_target text w t es :
  marker (fs w) = Some (MLink t) →
  nodes (fs w) !! t = Some (Dir es) →
  put_flag text w =
  (Ok tt, set_fs (set_nodes (<[t := Dir (<[SYSTEMD_FLAG_NAME := text]> es)]>
                               (nodes (fs w))) (fs w)) w).
Proof. intros Hm Hn. unfold put_flag, resolve_flag_dir. by rewrite Hm, Hn. Qed.

Lemma run_reboot_eq c w :
  run_reboot c w =
  let d1 := touched "download" (_data w) in
  match field "download" "datadir" (_data w) with
  | VStr t =>
      match link_target_error t with
      | Some e => (Raise e, set_data d1 w)
      | None =>
      match marker (fs w) with
      | Some _ => (Raise (OSError EEXIST), set_data d1 w)
      | None =>
          let w1 := set_fs (set_marker (Some (MLink t)) (fs w)) (set_data d1 w) in
          match nodes (fs w) !! t with
          | None => (Raise (IOError ENOENT), w1)
          | Some File => (Raise (IOError ENOTDIR), w1)
          | Some (Dir es) =>
              let text := "RELEASEVER=" +:+
                          py_str (field "download" "releasever" (_data w)) +:+ LF in
              let d3 := assign "upgrade" "status" (VStr "ready")
                               (touched "download" d1) in
              let disk := mkFs (Some (Doc d3)) (Some (MLink t))
                               (<[t := Dir (<[SYSTEMD_FLAG_NAME := text]> es)]>
                                  (nodes (fs w))) in
              (Ok tt,
               mkWorld disk d3 (trace w ++ [SystemctlReboot disk]) (plymouth w))
          end
      end
      end
  | _ => (Raise TypeError, set_data d1 w)
  end.
Proof.
  unfold run_reboot, bind, State.get, State.set, State.datadir,
    State.releasever, State.upgrade_status, State._prop.
  rewrite getprop_eq.
  destruct (field "download" "datadir" (_data w)) as [|b|t]; try done.
  unfold symlink_magic; wsimpl.
  destruct (link_target_error t) as [e|]; [done|].
  destruct (marker (fs w)) as [m|] eqn:Hm; [done|].
  destruct (nodes (fs w) !! t) as [[es|]|] eqn:Hn.
  - rewrite (put_flag_target _ _ t es) by done.
    rewrite getprop_eq. wsimpl.
    rewrite (put_flag_target _ _ t (<[SYSTEMD_FLAG_NAME:=""]> es))
      by (wsimpl; by rewrite ?lookup_insert_eq).
    erewrite with_ok by apply setprop_eq. wsimpl.
    by rewrite insert_insert_eq, insert_insert_eq, field_touched.
  - unfold put_flag, resolve_flag_dir; wsimpl. by rewrite Hn.
  - unfold put_flag, resolve_flag_dir; wsimpl. by rewrite Hn.
Qed.

(** C6. Marker and state across the reboot boundary.  When the reboot
    phase (guard, then [run_reboot]) succeeds, the restart was called
    once, as the last thing the phase did, and on the disk as it was at
    that call [MAGIC_SYMLINK] is a link to the committed
    [download.datadir], the flag file reached through it holds the line
    [RELEASEVER=] followed by the committed [download.releasever] as
    [str] prints it, and the committed [upgrade.status] is ['ready'];
    nothing on the disk changes after the call.  When the upgrade phase
    gets past its guard, nothing sits at [MAGIC_SYMLINK] when the
    invocation ends, whether the transaction then succeeds, fails, or any
    later step of the phase raises. *)
Theorem C6_marker_state_coupling (c : command) (tx : transaction_outcome)
    (w : world) :
  (opts_action c = Reboot →
   ∀ w', phase c tx w = (Ok tt, w') →
     ∃ t d disk,
       trace w' = (trace w ++ [SystemctlReboot disk])%list
       ∧ marker disk = Some (MLink t)
       ∧ persisted disk = Some d
       ∧ field "download" "datadir" d = VStr t
       ∧ field "upgrade" "status" d = VStr "ready"
       ∧ flag_file disk =
         Some ("RELEASEVER=" +:+
               match field "download" "releasever" d with
               | VStr s => s
               | VNone => "None"
               | VBool true => "True"
               | VBool false => "False"
               end +:+ String (Ascii.ascii_of_nat 10) "")
       ∧ fs w' = disk)
  ∧ (opts_action c = Upgrade →
     (doCheck c w).1 = Ok tt →
     marker (fs (phase c tx w).2) = None).
Proof.
  split.
  - intros Ha w'. unfold phase, bind, doCheck, run. rewrite Ha.
    rewrite check_reboot_eq.
    destruct (eq_str _ _); [|done].
    destruct (marker (fs w)) as [m|] eqn:Hm; wsimpl; [done|].
    rewrite run_reboot_eq. wsimpl. rewrite Hm, field_touched.
    destruct (field "download" "datadir" (_data w)) as [|b|t] eqn:Hdd; try done.
    destruct (link_target_error t); [done|].
    destruct (nodes (fs w) !! t) as [[es|]|]; try done.
    cbn [resolving when]. unfold ret. intros [= <-].
    eexists t, _, _. wsimpl.
    split; [reflexivity|]. split; [reflexivity|]. split; [reflexivity|].
    rewrite !field_assign_ne, !field_touched by done.
    rewrite field_assign_eq.
    repeat split; try done.
    unfold flag_file, resolve_flag_dir. wsimpl.
    rewrite !lookup_insert_eq.
    rewrite field_assign_ne, !field_touched by done.
    by destruct (field "download" "releasever" (_data w)) as [|[]|s].
  - intros Ha. unfold phase, bind, doCheck, run. rewrite Ha.
    rewrite check_upgrade_eq.
    destruct (eq_str _ _); [|done].
    destruct (marker (fs w)) as [[t|es|]|] eqn:Hm; try done.
    destruct (bool_decide _); [|done]. intros _. wsimpl.
    match goal with |- context [run_upgrade c ?w2] =>
      pose proof (run_upgrade_disarms c w2) as Hd;
      destruct (run_upgrade c w2) as [[[]|e] w3]
    end.
    + cbn [resolving when]. fold (the_marker (transaction c tx w3).2).
      rewrite marker_transaction_upgrade by done.
      apply Hd. wsimpl. by rewrite Hm.
    + apply Hd. wsimpl. by rewrite Hm.
Qed.

(** ** The download phase *)

Lemma run_download_eq c w :
  let w0 := emit (if opts_distro_sync c then DistroSync else UpgradeAll) w in
  let d := downloading_record c (_data w) in
  let commit n := (Ok tt, mkWorld (mkFs (Some (Doc d)) (marker (fs w)) n) d
                                  (trace w0) (plymouth w)) in
  run_download c w =
  if bool_decide (opts_datadir c = DEFAULT_DATADIR)
  then match nodes (fs w) !! opts_datadir c with
       | Some File => (Raise (OSError EEXIST), w0)
       | Some (Dir _) => commit (nodes (fs w))
       | None => commit (<[opts_datadir c := Dir ∅]> (nodes (fs w)))
       end
  else commit (nodes (fs w)).
Proof.
  intros w0 d commit.
  assert (Hcommit : ∀ w1 : world,
    State.with_
      (State.set State.download_status (VStr "downloading") ;;
       State.set State.releasever (conf_releasever c) ;;
       State.set State.datadir (VStr (opts_datadir c))) w1
    = (Ok tt, mkWorld (mkFs (Some (Doc (downloading_record c (_data w1))))
                            (marker (fs w1)) (nodes (fs w1)))
                      (downloading_record c (_data w1)) (trace w1) (plymouth w1))).
  { intros w1. erewrite with_ok.
    2:{ unfold bind, State.set, State.download_status, State.releasever,
          State.datadir, State._prop.
        rewrite !setprop_eq. wsimpl. reflexivity. }
    reflexivity. }
  unfold run_download. unfold bind at 1.
  assert (Hmark : (if opts_distro_sync c then call DistroSync else call UpgradeAll) w
                  = (Ok tt, w0)) by (subst w0; by destruct (opts_distro_sync c)).
  rewrite Hmark. unfold bind.
  destruct (bool_decide _); cbn [when]; [|unfold ret; by rewrite Hcommit].
  unfold ensure_dir. subst w0; wsimpl.
  destruct (nodes (fs w) !! opts_datadir c) as [[es|]|]; [|done|];
    by rewrite Hcommit.
Qed.

Lemma downloading_record_fields c d :
  field "download" "status" (downloading_record c d) = VStr "downloading"
  ∧ field "download" "releasever" (downloading_record c d) = conf_releasever c
  ∧ field "download" "datadir" (downloading_record c d) = VStr (opts_datadir c).
Proof.
  unfold downloading_record. repeat split.
  - rewrite !field_assign_ne by done. apply field_assign_eq.
  - rewrite field_assign_ne by done. apply field_assign_eq.
  - apply field_assign_eq.
Qed.

Lemma transaction_download_fails c tx w :
  opts_action c = Download →
  download_fails tx →
  ∃ e, transaction c tx w = (Raise e, w)
       ∧ match tx with
         | TxFailed e' => e = e'
         | TxDone _ => e = Error NO_KERNEL_MSG
         end.
Proof.
  intros Ha Hf. unfold transaction, run_transaction. rewrite Ha.
  destruct tx as [e|install_set]; [by exists e|].
  exists (Error NO_KERNEL_MSG). simpl in Hf.
  unfold transaction_download, bind. by rewrite Hf.
Qed.

(** C1, as the code has it.  [run_download] commits before dnf runs the
    transaction.  When the guard of a download passes and the transaction
    step then fails (dnf's transaction raises, or the install set has no
    kernel and [transaction_download] raises [NO_KERNEL_MSG]), the failing
    step commits nothing more, and the record on disk is the one
    [run_download] wrote: [download.status] is ['downloading'], with the
    requested release version and data directory, whatever the state
    was before. *)
Theorem C1_failed_download_leaves_downloading (c : command)
    (tx : transaction_outcome) (w : world) :
  opts_action c = Download →
  (doCheck c w).1 = Ok tt →
  download_fails tx →
  ∃ e w', phase c tx w = (Raise e, w')
          ∧ match tx with
            | TxFailed e' => e = e'
            | TxDone _ => e = Error NO_KERNEL_MSG
            end
          ∧ fs w' = fs (run_download c w).2
          ∧ persisted (fs w') = Some (downloading_record c (_data w))
          ∧ on_disk "download" "status" (fs w') = VStr "downloading"
          ∧ on_disk "download" "releasever" (fs w') = conf_releasever c
          ∧ on_disk "download" "datadir" (fs w') = VStr (opts_datadir c).
Proof.
  intros Ha Hcheck Hfail.
  unfold doCheck in Hcheck. rewrite Ha in Hcheck.
  pose proof (check_download_datadir c w Hcheck) as Hnode.
  unfold phase, bind, doCheck, run. rewrite Ha.
  destruct (check_download_eq c w) as [Hc|[msg Hc]];
    [|by rewrite Hc in Hcheck].
  rewrite Hc. pose proof (run_download_eq c w) as Hrun. simpl in Hrun.
  assert (∃ n, run_download c w =
               (Ok tt, mkWorld (mkFs (Some (Doc (downloading_record c (_data w))))
                                     (marker (fs w)) n)
                               (downloading_record c (_data w))
                               (trace w ++ [if opts_distro_sync c
                                            then DistroSync else UpgradeAll])
                               (plymouth w)))
    as [n Hrun'].
  { rewrite Hrun. destruct (bool_decide _); [|by eexists].
    destruct (nodes (fs w) !! opts_datadir c) as [[es|]|];
      [by eexists|by destruct Hnode|by eexists]. }
  rewrite Hrun'. cbn [resolving when].
  match goal with |- context [transaction c tx ?w1] =>
    destruct (transaction_download_fails c tx w1 Ha Hfail) as (e & -> & He)
  end.
  exists e. eexists. split; [reflexivity|]. split; [done|]. split; [done|].
  unfold on_disk. wsimpl. split; [done|]. cbn [persisted statefile].
  apply downloading_record_fields.
Qed.

(** C1 fails as stated.  A first download on a system without state,
    whose transaction ends without a kernel in the install set: the phase
    fails with [NO_KERNEL_MSG], and [download.status], unset before, is
    ['downloading'] on disk afterwards.  The same when dnf's transaction
    itself raises. *)
Lemma C1_counterexample :
  (invoke (sample_command Download) (TxDone ["bash"]) (boot fresh_fs)).1
  = Raise (Error NO_KERNEL_MSG)
  ∧ on_disk "download" "status" fresh_fs = VNone
  ∧ on_disk "download" "status"
      (fs (invoke (sample_command Download) (TxDone ["bash"]) (boot fresh_fs)).2)
    = VStr "downloading"
  ∧ (invoke (sample_command Download) (TxFailed (Error "depsolve")) (boot fresh_fs)).1
    = Raise (Error "depsolve")
  ∧ on_disk "download" "status"
      (fs (invoke (sample_command Download) (TxFailed (Error "depsolve"))
                  (boot fresh_fs)).2)
    = VStr "downloading".
Proof. by vm_compute. Qed.


(** With the default data directory, [run_download] makes sure it is
    there. *)
Lemma run_download_default_creates c w :
  opts_datadir c = DEFAULT_DATADIR →
  nodes (fs w) !! DEFAULT_DATADIR = None →
  nodes (fs (run_download c w).2) !! DEFAULT_DATADIR = Some (Dir ∅).
Proof.
  intros Hd Hn. pose proof (run_download_eq c w) as Hrun. simpl in Hrun.
  rewrite Hrun, Hd, Hn. simpl. by rewrite lookup_insert_eq.
Qed.


(** ** The clean phase *)

Lemma run_clean_purges c w p es :
  field "download" "datadir" (_data w) = VStr p →
  p ≠ "" →
  nodes (fs w) !! p = Some (Dir es) →
  run_clean c w =
  (Ok tt, mkWorld (mkFs None (marker (fs w)) (<[p := Dir ∅]> (nodes (fs w))))
                  ∅ (trace w ++ [LogInfo CLEAN_MSG]) (plymouth w)).
Proof.
  intros Hdd Hp Hn.
  unfold run_clean, bind, State.get, State.datadir, State._prop.
  rewrite getprop_eq, Hdd. cbn [truthy].
  apply String.eqb_neq in Hp. rewrite Hp. cbn [negb when].
  unfold bind, log_info, modify. rewrite getprop_eq. wsimpl.
  rewrite field_touched, Hdd. cbn [clear_dir_value].
  unfold clear_dir, bind, listdir. wsimpl. rewrite Hn.
  unfold modify. by rewrite clear_eq.
Qed.

Lemma run_clean_nothing_to_purge c w :
  truthy (field "download" "datadir" (_data w)) = false →
  run_clean c w =
  (Ok tt, mkWorld (mkFs None (marker (fs w)) (nodes (fs w))) ∅ (trace w)
                  (plymouth w)).
Proof.
  intros Hdd.
  unfold run_clean, bind, State.get, State.datadir, State._prop.
  rewrite getprop_eq, Hdd. cbn [when]. unfold ret.
  by rewrite clear_eq.
Qed.

Lemma truthy_VStr p : truthy (VStr p) = true → p ≠ "".
Proof. simpl. intros H ->. done. Qed.

(** Where clean does work.  Starting from a state file that is absent or
    holds a record, and with the data directory on record, when there is
    one, an existing directory: a clean invocation succeeds, leaves no
    state file (the state loads as empty) and the recorded data directory
    empty; a second clean invocation succeeds as well and changes nothing
    on disk, and so does a second [run_clean] in the same process. *)
Theorem clean_twice_when_datadir_exists (c : command)
    (tx1 tx2 : transaction_outcome)
    (f : filesystem) :
  opts_action c = Clean →
  statefile f ≠ Some NotJson →
  recorded_datadir_is_dir f →
  ∃ w1 w2,
    invoke c tx1 (boot f) = (Ok tt, w1)
    ∧ statefile (fs w1) = None
    ∧ _data w1 = ∅
    ∧ marker (fs w1) = marker f
    ∧ (∀ p, truthy (on_disk "download" "datadir" f) = true →
            on_disk "download" "datadir" f = VStr p →
            nodes (fs w1) !! p = Some (Dir ∅))
    ∧ invoke c tx2 (boot (fs w1)) = (Ok tt, w2)
    ∧ fs w2 = fs w1
    ∧ _data w2 = ∅
    ∧ (run_clean c w1).1 = Ok tt
    ∧ fs (run_clean c w1).2 = fs w1
    ∧ _data (run_clean c w1).2 = ∅.
Proof.
  intros Ha Hf Hdir.
  assert (Hphase : ∀ tx w, phase c tx w = run_clean c w).
  { intros tx w. unfold phase, bind, doCheck, run. rewrite Ha.
    unfold ret. by destruct (run_clean c w) as [[[]|e] w']. }
  assert (Hsecond : ∀ tx m n d tr pl,
             (∀ sec opt, field sec opt d = VNone) →
             phase c tx (mkWorld (mkFs None m n) d tr pl)
             = (Ok tt, mkWorld (mkFs None m n) ∅ tr pl)).
  { intros tx m n d tr pl Hd. rewrite Hphase.
    rewrite run_clean_nothing_to_purge; [done|]. wsimpl. by rewrite Hd. }
  assert (Hfirst : ∃ n tr,
             invoke c tx1 (boot f)
             = (Ok tt, mkWorld (mkFs None (marker f) n) ∅ tr PlymouthOutput.__init__)
             ∧ ∀ p, truthy (on_disk "download" "datadir" f) = true →
                    on_disk "download" "datadir" f = VStr p →
                    n !! p = Some (Dir ∅)).
  { destruct (invoke_eq c tx1 f Hf) as (d & evs & -> & Hd).
    rewrite Hphase.
    destruct (truthy (on_disk "download" "datadir" f)) eqn:Ht.
    - destruct (Hdir Ht) as (p & es & Hp & Hn).
      rewrite (run_clean_purges _ _ p es); wsimpl.
      + eexists _, _. split; [reflexivity|].
        intros p' _ Hp'. rewrite Hp in Hp'. injection Hp' as <-.
        apply lookup_insert_eq.
      + by rewrite Hd.
      + apply truthy_VStr. by rewrite <- Hp.
      + done.
    - rewrite run_clean_nothing_to_purge by (wsimpl; by rewrite Hd).
      wsimpl. eexists _, _. split; [reflexivity|]. done. }
  destruct Hfirst as (n & tr & H1 & Hpurged).
  destruct (invoke_eq c tx2 (mkFs None (marker f) n)) as (d2 & evs2 & H2 & Hd2);
    [done|].
  exists (mkWorld (mkFs None (marker f) n) ∅ tr PlymouthOutput.__init__),
         (mkWorld (mkFs None (marker f) n) ∅ evs2 PlymouthOutput.__init__).
  split; [done|]. split; [done|]. split; [done|]. split; [done|].
  split; [done|]. wsimpl.
  split; [by rewrite H2, Hsecond|]. split; [done|]. split; [done|].
  rewrite <- (Hphase tx2), Hsecond; [done|].
  intros. apply field_empty.
Qed.

(** C8 fails on the code.  On a system without state, a download into a
    [--datadir] that does not exist, which fails before dnf fetches
    anything, leaves a state file that records that directory (the tool
    never created it).  Clean then stops in [clear_dir] with [OSError]:
    [run_clean] lists the recorded directory without asking whether it
    exists.  The state file is still there with its record, the state is
    not empty, and a second clean stops in the same way.  The steps next
    to it do put up with what is not there: [State.clear] with no state
    file, [unlink_f] with no marker, [checkDataDir] with no directory. *)
Theorem C8_clean_stops_on_missing_datadir :
  let f := after_failed_custom_download in
  let r1 := invoke (custom_command Clean) (TxDone []) (boot f) in
  let r2 := invoke (custom_command Clean) (TxDone []) (boot (fs r1.2)) in
  f = fs (invoke (custom_command Download) (TxFailed (Error "depsolve"))
                 (boot fresh_fs)).2
  ∧ on_disk "download" "datadir" f = VStr "/mnt/upgrade"
  ∧ nodes f !! "/mnt/upgrade" = None
  ∧ r1.1 = Raise (OSError ENOENT)
  ∧ fs r1.2 = f
  ∧ on_disk "download" "status" (fs r1.2) = VStr "downloading"
  ∧ r2.1 = Raise (OSError ENOENT)
  ∧ (State.clear (boot fresh_fs)).1 = Ok tt
  ∧ (unlink_f_magic (boot fresh_fs)).1 = Ok tt
  ∧ (checkDataDir "/mnt/upgrade" (boot fresh_fs)).1 = Ok tt.
Proof. by vm_compute. Qed.

(** * The theorems at sample inputs *)

(** A first download that ends without a kernel. *)
Lemma C1_witness :
  ∃ e w', phase (sample_command Download) (TxDone ["bash"]) (boot fresh_fs)
          = (Raise e, w')
          ∧ e = Error NO_KERNEL_MSG
          ∧ on_disk "download" "status" (fs w') = VStr "downloading".
Proof.
  destruct (C1_failed_download_leaves_downloading
              (sample_command Download) (TxDone ["bash"]) (boot fresh_fs))
    as (e & w' & H1 & H2 & _ & _ & H3 & _); [reflexivity..|].
  by exists e, w'.
Defined.

(** An armed system on which another tool has replaced the link. *)
Lemma C5_witness :
  ∃ w', invoke (sample_command Upgrade) (TxDone []) (boot stale_fs)
        = (Raise (SystemExit 0), w')
        ∧ fs w' = stale_fs
        ∧ last (trace w') = Some (LogInfo STALE_MSG)
        ∧ classified (SystemExit 0) = true.
Proof.
  apply (C5_stale_run_quiet_exit (sample_command Upgrade) (TxDone []) stale_fs
           ready_record "/var/cache/PackageKit/prepared-update").
  - reflexivity.
  - vm_compute. reflexivity.
  - vm_compute. reflexivity.
  - reflexivity.
  - vm_compute. discriminate.
Defined.

(** The reboot phase after a complete download, and the upgrade phase
    after it with a transaction that fails. *)
Lemma C6_witness :
  (∃ t d disk,
     [SystemctlReboot armed_fs] = ([] ++ [SystemctlReboot disk])%list
     ∧ marker disk = Some (MLink t)
     ∧ persisted disk = Some d
     ∧ field "download" "datadir" d = VStr t
     ∧ field "upgrade" "status" d = VStr "ready"
     ∧ flag_file disk =
       Some ("RELEASEVER=" +:+
             match field "download" "releasever" d with
             | VStr s => s
             | VNone => "None"
             | VBool true => "True"
             | VBool false => "False"
             end +:+ String (Ascii.ascii_of_nat 10) "")
     ∧ armed_fs = disk)
  ∧ marker (fs (phase (sample_command Upgrade) (TxFailed (Error "rpm failed"))
                      (mkWorld armed_fs ready_record [] PlymouthOutput.__init__)).2)
    = None.
Proof.
  split.
  - apply (proj1 (C6_marker_state_coupling (sample_command Reboot) (TxDone [])
                    (mkWorld downloaded_fs complete_record []
                             PlymouthOutput.__init__))
             eq_refl
             (mkWorld armed_fs ready_record [SystemctlReboot armed_fs]
                      PlymouthOutput.__init__)).
    vm_compute. reflexivity.
  - apply (proj2 (C6_marker_state_coupling (sample_command Upgrade)
                    (TxFailed (Error "rpm failed"))
                    (mkWorld armed_fs ready_record [] PlymouthOutput.__init__))).
    + reflexivity.
    + vm_compute. reflexivity.
Defined.

(** Clean, twice, after a complete download. *)
Lemma clean_twice_when_datadir_exists_witness :
  ∃ w1 w2,
    invoke (sample_command Clean) (TxDone []) (boot downloaded_fs) = (Ok tt, w1)
    ∧ statefile (fs w1) = None
    ∧ nodes (fs w1) !! DEFAULT_DATADIR = Some (Dir ∅)
    ∧ invoke (sample_command Clean) (TxDone []) (boot (fs w1)) = (Ok tt, w2)
    ∧ fs w2 = fs w1.
Proof.
  destruct (clean_twice_when_datadir_exists (sample_command Clean) (TxDone [])
              (TxDone [])
              downloaded_fs)
    as (w1 & w2 & H1 & H2 & _ & _ & H3 & H4 & H5 & _).
  - reflexivity.
  - discriminate.
  - intros _. eexists DEFAULT_DATADIR, _. split; vm_compute; reflexivity.
  - exists w1, w2. repeat split; try done.
    apply H3; vm_compute; reflexivity.
Defined.


(** ** The scenarios *)

(** Download with a kernel in the install set, reboot, upgrade with a
    successful transaction: the state ends empty, the data directory
    empty, the marker gone, and the last call is the restart. *)
Example scenario_happy_path :
  let r1 := invoke (sample_command Download) (TxDone ["bash"; "kernel-core"])
                   (boot fresh_fs) in
  let r2 := invoke (sample_command Reboot) (TxDone []) (boot (fs r1.2)) in
  let r3 := invoke (sample_command Upgrade) (TxDone []) (boot (fs r2.2)) in
  r1.1 = Ok tt
  ∧ on_disk "download" "status" (fs r1.2) = VStr "complete"
  ∧ on_disk "download" "releasever" (fs r1.2) = VStr "40"
  ∧ r2.1 = Ok tt
  ∧ marker (fs r2.2) = Some (MLink DEFAULT_DATADIR)
  ∧ on_disk "upgrade" "status" (fs r2.2) = VStr "ready"
  ∧ r3.1 = Ok tt
  ∧ fs r3.2 = mkFs None None {[ DEFAULT_DATADIR := Dir ∅ ]}
  ∧ last (trace r3.2)
    = Some (SystemctlReboot (mkFs None None {[ DEFAULT_DATADIR := Dir ∅ ]}))
  ∧ PlymouthOutput.ran (plymouth r3.2)
    = [[PlymouthOutput.PLYMOUTH; "change-mode"; "--updates"];
       [PlymouthOutput.PLYMOUTH; "system-update"; "--progress"; "0"];
       [PlymouthOutput.PLYMOUTH; "display-message"; "--text";
        "Starting system upgrade. This will take a while."];
       [PlymouthOutput.PLYMOUTH; "display-message"; "--text";
        "Upgrade complete! Cleaning up and rebooting..."]].
Proof. by vm_compute. Qed.

(** Asking for the release that is already running is denied before
    anything is marked, fetched or written. *)
Example scenario_same_release :
  let c := mkCommand Download DEFAULT_DATADIR false (VStr "39") (VStr "39")
                     true true "system-upgrade" "/root" (λ _, Some true) id in
  let r := invoke c (TxDone ["kernel"]) (boot fresh_fs) in
  r.1 = Raise (CliError RELEASEVER_MSG)
  ∧ fs r.2 = fresh_fs
  ∧ UpgradeAll ∉ trace r.2.
Proof.
  vm_compute. repeat split.
  intros H. repeat (apply elem_of_cons in H as [H|H]; [discriminate H|]).
  by apply elem_of_nil in H.
Qed.

(** * Beyond the claims *)

(** ** Plymouth output helpers *)

Section Plymouth.
Import PlymouthOutput.
Context (answers : nat → bool).
Open Scope list_scope.

Lemma _plymouth_skip cmd args p :
  alive p = false → cmd ≠ "--ping" → _plymouth answers cmd args p = (false, p).
Proof.
  intros Ha Hc. unfold _plymouth. rewrite Ha.
  apply String.eqb_neq in Hc. by rewrite Hc.
Qed.

Lemma _plymouth_dupe cmd args p :
  _last_args p !! cmd = Some args → cmd ≠ "--ping" →
  _plymouth answers cmd args p = (alive p, p).
Proof.
  intros Hl Hc. unfold _plymouth. rewrite Hl.
  rewrite bool_decide_eq_true_2 by done.
  apply String.eqb_neq in Hc. rewrite Hc.
  by destruct (alive p).
Qed.

Lemma serve_not_ping r p :
  r ≠ Ping → ∃ cmd args, cmd ≠ "--ping" ∧ serve answers r p = _plymouth answers cmd args p.
Proof.
  intros Hr. destruct r as [|msg|mode|percent]; [done|..];
    eexists _, _; (split; [|reflexivity]); done.
Qed.

(** Once plymouth could not be reached, no message, mode change or
    progress report runs the binary any more: every such call returns
    [False] and leaves the object as it is. *)
Theorem Plymouth_dead_stays_silent (rs : list request) (p : t) :
  alive p = false →
  Forall (λ r, r ≠ Ping) rs →
  serve_all answers rs p = p
  ∧ Forall (λ r, serve answers r p = (false, p)) rs.
Proof.
  intros Ha Hrs. induction Hrs as [|r rs Hr Hrs IH]; [done|].
  destruct (serve_not_ping r p Hr) as (cmd & args & Hc & Hs).
  rewrite _plymouth_skip in Hs by done.
  destruct IH as [IH1 IH2]. split.
  - unfold serve_all in *. simpl. by rewrite Hs.
  - by constructor.
Qed.

(** The same call twice in a row (other than a ping) runs the binary at
    most once: the second call changes nothing and returns the [alive]
    flag the first one left. *)
Theorem Plymouth_repeat_is_filtered (cmd : string) (args : list string) (p : t) :
  cmd ≠ "--ping" →
  _plymouth answers cmd args (_plymouth answers cmd args p).2
  = (alive (_plymouth answers cmd args p).2, (_plymouth answers cmd args p).2).
Proof.
  intros Hc. pose proof Hc as Hc'. apply String.eqb_neq in Hc'.
  destruct (alive p && negb (bool_decide (Some args = _last_args p !! cmd)))
    eqn:Hrun.
  - assert (H : _plymouth answers cmd args p
                = (answers (length (ran p)),
                   mk (answers (length (ran p))) (<[cmd := args]> (_last_args p))
                      (ran p ++ [PLYMOUTH :: cmd :: args])))
      by (unfold _plymouth; by rewrite Hrun).
    rewrite H. cbn [snd].
    apply _plymouth_dupe; [|done]. cbn [_last_args]. apply lookup_insert_eq.
  - assert (H : _plymouth answers cmd args p = (alive p, p))
      by (unfold _plymouth; by rewrite Hrun, Hc').
    by rewrite H.
Qed.

Lemma serve_ran r p :
  (serve answers r p).2 = p
  ∨ ∃ argv, ran (serve answers r p).2 = ran p ++ [PLYMOUTH :: argv]
            ∧ alive (serve answers r p).2 = answers (length (ran p)).
Proof.
  destruct r; unfold serve, ping, message, set_mode, progress, _plymouth;
    destruct (_ || _); cbn [snd ran alive]; eauto.
Qed.

(** Whatever is asked of the object, in whatever order: the list of runs
    only grows, every run is a run of [PLYMOUTH], and [alive] is the exit
    status of the most recent run (or what it was, when nothing ran). *)
Theorem Plymouth_alive_is_last_status (rs : list request) (p : t) :
  ∃ more, ran (serve_all answers rs p) = ran p ++ more
          ∧ Forall (λ argv, ∃ rest, argv = PLYMOUTH :: rest) more
          ∧ alive (serve_all answers rs p) =
            match more with
            | [] => alive p
            | _ => answers (length (ran (serve_all answers rs p)) - 1)
            end.
Proof.
  revert p. induction rs as [|r rs IH]; intros p.
  - exists []. by rewrite app_nil_r.
  - change (serve_all answers (r :: rs) p)
      with (serve_all answers rs (serve answers r p).2).
    destruct (IH (serve answers r p).2) as (more & Hran & Hall & Hal).
    destruct (serve_ran r p) as [Hp|(argv & Hr & Ha)].
    + rewrite Hp in *. by exists more.
    + exists ((PLYMOUTH :: argv) :: more).
      rewrite Hran, Hr, <- (assoc_L app). split; [done|].
      split; [constructor; eauto|].
      rewrite Hal. destruct more as [|m more].
      * rewrite Ha, !length_app. simpl. f_equal. lia.
      * rewrite Hran, Hr, <- (assoc_L app). done.
Qed.

(** A call that fails is remembered like one that went through.  So when
    a message could not be shown, and a ping then finds plymouth again,
    the same message is taken for a repeat and is not shown. *)
Theorem Plymouth_lost_message_not_retried (msg : string) (p : t) :
  alive p = true →
  _last_args p !! "display-message" ≠ Some ["--text"; msg] →
  answers (length (ran p)) = false →
  answers (S (length (ran p))) = true →
  let p1 := (message answers msg p).2 in
  let p2 := (ping answers p1).2 in
  alive p1 = false
  ∧ alive p2 = true
  ∧ message answers msg p2 = (true, p2)
  ∧ ran p2 = ran p ++ [[PLYMOUTH; "display-message"; "--text"; msg];
                       [PLYMOUTH; "--ping"]].
Proof.
  intros Ha Hl H0 H1.
  set (l1 := <["display-message" := ["--text"; msg]]> (_last_args p)).
  set (r1 := ran p ++ [[PLYMOUTH; "display-message"; "--text"; msg]]).
  assert (Hm : message answers msg p = (false, mk false l1 r1)).
  { unfold message, _plymouth. rewrite Ha, H0.
    by rewrite bool_decide_eq_false_2 by congruence. }
  assert (Hp : ping answers (mk false l1 r1)
               = (true, mk true (<["--ping" := []]> l1) (r1 ++ [[PLYMOUTH; "--ping"]]))).
  { unfold ping, _plymouth. cbn [alive ran _last_args andb orb String.eqb].
    subst r1. by rewrite length_app, Nat.add_1_r, H1. }
  rewrite Hm. cbn [snd]. rewrite Hp. cbn [snd alive ran].
  repeat split.
  - unfold message. rewrite _plymouth_dupe; [done| |done].
    cbn [_last_args]. rewrite lookup_insert_ne by done. apply lookup_insert_eq.
  - subst r1. by rewrite <- (assoc_L app).
Qed.

End Plymouth.

(** ** The state object *)

Lemma bind_ok {A B} (m : M A) (k : A → M B) w a w1 :
  m w = (Ok a, w1) → bind m k w = k a w1.
Proof. intros H. unfold bind. by rewrite H. Qed.

Lemma bind_raise {A B} (m : M A) (k : A → M B) w e w1 :
  m w = (Raise e, w1) → bind m k w = (Raise e, w1).
Proof. intros H. unfold bind. by rewrite H. Qed.

Lemma mutations_assign_all ms w :
  mutations ms w = (Ok tt, set_data (assign_all ms (_data w)) w).
Proof.
  revert w. induction ms as [|[[sec opt] v] ms IH]; intros w.
  - by destruct w.
  - simpl. unfold bind. rewrite setprop_eq, IH. by destruct w.
Qed.

(** Assigning a property and reading one back: the property assigned
    reads as the value just given, every other property reads as it did
    before, and nothing on disk has moved. *)
Theorem State_set_then_get (sec opt sec' opt' : string) (v : value) (w : world) :
  (State.getprop sec' opt' (State.setprop sec opt v w).2).1
  = (if decide ((sec, opt) = (sec', opt')) then Ok v
     else (State.getprop sec' opt' w).1)
  ∧ fs (State.setprop sec opt v w).2 = fs w.
Proof.
  rewrite setprop_eq, !getprop_eq. cbn [fst snd fs _data set_data]. split; [|done].
  destruct (decide _) as [[= <- <-]|Hne].
  - by rewrite field_assign_eq.
  - by rewrite field_assign_ne.
Qed.

(** Reading a property changes no property and nothing on disk, but it
    is not without effect on the dictionary: the section read from is
    put into [_data], empty, when it was not there. *)
Theorem State_get_keeps_fields (sec opt : string) (w : world) :
  fs (State.getprop sec opt w).2 = fs w
  ∧ (∀ sec' opt', (State.getprop sec' opt' (State.getprop sec opt w).2).1
                  = (State.getprop sec' opt' w).1)
  ∧ _data (State.getprop sec opt w).2 !! sec = Some (default ∅ (_data w !! sec))
  ∧ (∀ sec', sec' ≠ sec →
             _data (State.getprop sec opt w).2 !! sec' = _data w !! sec').
Proof.
  rewrite getprop_eq. cbn [fst snd fs _data set_data].
  split; [done|]. split.
  { intros. rewrite !getprop_eq. cbn [fst _data set_data]. by rewrite field_touched. }
  unfold touched, State.setdefault.
  destruct (_data w !! sec) as [s|] eqn:E; cbn [fst].
  - by rewrite E.
  - split; [apply lookup_insert_eq|]. intros. by apply lookup_insert_ne.
Qed.

(** What a block assigned before it raised stays in the object, though
    not on disk: the next block that ends normally in the same process
    commits those assignments along with its own. *)
Theorem failed_block_is_committed_later (w : world)
    (ms1 ms2 : list (string * string * value)) (e : exn) :
  persisted (fs (State.with_ (mutations ms1 ;; @raise unit e) w).2) = persisted (fs w)
  ∧ persisted (fs (State.with_ (mutations ms2)
                     (State.with_ (mutations ms1 ;; @raise unit e) w).2).2)
    = Some (assign_all (ms1 ++ ms2) (_data w)).
Proof.
  erewrite (with_raise _ w e); cycle 1.
  { unfold bind, raise. rewrite mutations_assign_all. reflexivity. }
  cbn [snd]. split; [done|].
  erewrite with_ok by apply mutations_assign_all.
  cbn [snd fs _data set_data set_fs persisted statefile set_statefile].
  unfold assign_all. by rewrite foldl_app.
Qed.

(** [clear] always goes through, whatever the state file holds, torn or
    not: afterwards there is no state file, the object is empty, the
    rest of the disk is as before; a second [clear] changes nothing and a
    new process loads the empty state. *)
Theorem State_clear_always_resets (w : world) :
  ∃ w', State.clear w = (Ok tt, w')
        ∧ statefile (fs w') = None
        ∧ _data w' = ∅
        ∧ marker (fs w') = marker (fs w)
        ∧ nodes (fs w') = nodes (fs w)
        ∧ State.clear w' = (Ok tt, w')
        ∧ State.__init__ (boot (fs w')) = (Ok tt, boot (fs w')).
Proof.
  eexists. split; [apply clear_eq|].
  repeat split; done.
Qed.

(** With a torn state file no action gets anywhere, clean included: the
    command object cannot be built, the invocation ends with the
    [ValueError] of [json.load], and nothing is touched. *)
Theorem torn_state_file_stops_every_action (c : command)
    (tx : transaction_outcome) (f : filesystem) :
  statefile f = Some NotJson →
  invoke c tx (boot f) = (Raise ValueError, boot f).
Proof.
  intros Hf. unfold invoke, bind. rewrite init_eq. simpl. by rewrite Hf.
Qed.

(** ** More on the download phase *)

Lemma check_download_passes c w :
  (check_download c w).1 = Ok tt ↔
  gpgkey_ok c = true ∧ enabled_repo c = true
  ∧ detect_releasever c ≠ conf_releasever c
  ∧ nodes (fs w) !! opts_datadir c ≠ Some File.
Proof.
  unfold check_download, bind, checkGPGKey, checkEnabledRepo, checkReleaseVer,
    checkDataDir, path_exists, path_isdir, gets, bind, ret, raise.
  destruct (gpgkey_ok c); [|split; [done|by intros (? & _)]].
  destruct (enabled_repo c); [|split; [done|by intros (_ & ? & _)]].
  case_bool_decide as Hrel; [split; [done|by intros (_ & _ & ? & _)]|].
  destruct (nodes (fs w) !! opts_datadir c) as [[es|]|] eqn:Hn.
  - rewrite bool_decide_eq_true_2 by eauto. done.
  - rewrite bool_decide_eq_true_2 by eauto.
    split; [done|]. by intros (_ & _ & _ & ?).
  - rewrite bool_decide_eq_false_2 by (by intros [? ?]). done.
Qed.

Lemma transaction_download_ok c install_set w :
  has_kernel install_set = true →
  transaction_download c install_set w =
  (Ok tt, mkWorld (set_statefile (Some (Doc (complete_of c (_data w)))) (fs w))
                  (complete_of c (_data w))
                  (trace w ++ [LogInfo DOWNLOAD_FINISHED_MSG]) (plymouth w)).
Proof.
  intros Hk. unfold transaction_download, bind. rewrite Hk. cbn [negb when].
  unfold ret. erewrite with_ok; cycle 1.
  { unfold bind, State.set, State.download_status, State.distro_sync, State._prop.
    rewrite !setprop_eq. reflexivity. }
  reflexivity.
Qed.

Lemma complete_of_fields c d :
  field "download" "status" (complete_of c d) = VStr "complete"
  ∧ field "upgrade" "distro-sync" (complete_of c d) = VBool (opts_distro_sync c)
  ∧ ∀ sec opt, (sec, opt) ≠ ("download", "status") →
               (sec, opt) ≠ ("upgrade", "distro-sync") →
               field sec opt (complete_of c d) = field sec opt d.
Proof.
  unfold complete_of. repeat split.
  - rewrite field_assign_ne by done. apply field_assign_eq.
  - apply field_assign_eq.
  - intros sec opt H1 H2. by rewrite !field_assign_ne.
Qed.

Lemma downloading_record_other c d sec opt :
  sec ≠ "download" →
  field sec opt (downloading_record c d) = field sec opt d.
Proof.
  intros Hs. unfold downloading_record.
  rewrite !field_assign_ne; [done|congruence..].
Qed.

(** The download guard, in the order it asks: with keys and repositories
    in place, a target release equal to the running one is refused with
    [RELEASEVER_MSG]; otherwise a data directory path that is taken by
    something that is not a directory is refused with "File exists"; in
    both cases nothing has been marked, created or written.  Otherwise
    the guard lets the download through, a data directory that does not
    exist included. *)
Theorem download_guard_denials (c : command) (tx : transaction_outcome) (w : world) :
  opts_action c = Download →
  gpgkey_ok c = true →
  enabled_repo c = true →
  (detect_releasever c = conf_releasever c →
   phase c tx w = (Raise (CliError RELEASEVER_MSG), w))
  ∧ (detect_releasever c ≠ conf_releasever c →
     nodes (fs w) !! opts_datadir c = Some File →
     phase c tx w = (Raise (CliError "--datadir: File exists"), w))
  ∧ (detect_releasever c ≠ conf_releasever c →
     nodes (fs w) !! opts_datadir c ≠ Some File →
     doCheck c w = (Ok tt, w)).
Proof.
  intros Ha Hg Hr.
  unfold phase, bind, doCheck. rewrite Ha.
  unfold check_download, bind, checkGPGKey, checkEnabledRepo, checkReleaseVer,
    checkDataDir, path_exists, path_isdir, gets, bind, ret, raise.
  rewrite Hg, Hr. repeat split.
  - intros Hrel. by rewrite bool_decide_eq_true_2.
  - intros Hrel Hn. rewrite bool_decide_eq_false_2 by done.
    rewrite Hn. by rewrite bool_decide_eq_true_2 by eauto.
  - intros Hrel Hn. rewrite bool_decide_eq_false_2 by done.
    destruct (nodes (fs w) !! opts_datadir c) as [[es|]|]; [|done|].
    + by rewrite bool_decide_eq_true_2 by eauto.
    + by rewrite bool_decide_eq_false_2 by (by intros [? ?]).
Qed.

Lemma run_download_after_guard c w :
  (check_download c w).1 = Ok tt →
  ∃ n, run_download c w =
       (Ok tt, mkWorld (mkFs (Some (Doc (downloading_record c (_data w))))
                             (marker (fs w)) n)
                       (downloading_record c (_data w))
                       (trace w ++ [if opts_distro_sync c
                                    then DistroSync else UpgradeAll])
                       (plymouth w))
       ∧ (opts_datadir c = DEFAULT_DATADIR →
          ∃ es, n !! opts_datadir c = Some (Dir es)).
Proof.
  intros Hcheck. pose proof (check_download_datadir c w Hcheck) as Hnode.
  pose proof (run_download_eq c w) as Hrun. simpl in Hrun. rewrite Hrun.
  case_bool_decide as Hd.
  - destruct (nodes (fs w) !! opts_datadir c) as [[es|]|] eqn:Hn.
    + eexists. split; [done|]. intros _. by rewrite Hn; eauto.
    + by destruct Hnode.
    + eexists. split; [done|]. intros _. rewrite lookup_insert_eq. eauto.
  - eexists. split; [done|]. done.
Qed.

(** A download whose guard passes and whose transaction ends with a
    kernel in the install set: the phase succeeds and the state file
    holds [download.status = 'complete'] with the release version and
    data directory asked for and the [--distro-sync] flag; the default
    data directory exists afterwards; the marker is not touched. *)
Theorem download_commits_complete (c : command) (install_set : list string)
    (w : world) :
  opts_action c = Download →
  (doCheck c w).1 = Ok tt →
  has_kernel install_set = true →
  ∃ w', phase c (TxDone install_set) w = (Ok tt, w')
        ∧ persisted (fs w') = Some (_data w')
        ∧ on_disk "download" "status" (fs w') = VStr "complete"
        ∧ on_disk "download" "releasever" (fs w') = conf_releasever c
        ∧ on_disk "download" "datadir" (fs w') = VStr (opts_datadir c)
        ∧ on_disk "upgrade" "distro-sync" (fs w') = VBool (opts_distro_sync c)
        ∧ marker (fs w') = marker (fs w)
        ∧ (opts_datadir c = DEFAULT_DATADIR →
           ∃ es, nodes (fs w') !! DEFAULT_DATADIR = Some (Dir es)).
Proof.
  intros Ha Hcheck Hk. unfold doCheck in Hcheck. rewrite Ha in Hcheck.
  destruct (run_download_after_guard c w Hcheck) as (n & Hrun & Hdir).
  unfold phase, bind, doCheck, run. rewrite Ha.
  destruct (check_download_eq c w) as [Hc|[msg Hc]];
    [|by rewrite Hc in Hcheck].
  rewrite Hc, Hrun. cbn [resolving when transaction].
  unfold run_transaction. rewrite Ha, transaction_download_ok by done.
  eexists. split; [reflexivity|].
  unfold on_disk. wsimpl. cbn [persisted statefile].
  destruct (complete_of_fields c (downloading_record c (_data w)))
    as (H1 & H2 & H3).
  destruct (downloading_record_fields c (_data w)) as (_ & H4 & H5).
  cbn [persisted statefile set_statefile marker nodes].
  rewrite H1, H2, !H3, H4, H5 by done.
  repeat split; try done.
  intros Hd. destruct (Hdir Hd) as [es Hes]. rewrite <- Hd. eauto.
Qed.

(** A download invocation, however it ends, leaves the marker and the
    persisted [upgrade.status] as they are: downloading again on a system
    that is armed for the upgrade leaves it armed. *)
Theorem download_leaves_marker_and_upgrade_status (c : command)
    (tx : transaction_outcome) (f : filesystem) :
  opts_action c = Download →
  marker (fs (invoke c tx (boot f)).2) = marker f
  ∧ on_disk "upgrade" "status" (fs (invoke c tx (boot f)).2)
    = on_disk "upgrade" "status" f.
Proof.
  intros Ha.
  destruct (decide (statefile f = Some NotJson)) as [Hf|Hf].
  { unfold invoke, bind. rewrite init_eq. simpl. by rewrite Hf. }
  destruct (invoke_eq c tx f Hf) as (d & evs & -> & Hd).
  unfold phase, bind, doCheck, run. rewrite Ha.
  destruct (check_download_eq c (mkWorld f d evs PlymouthOutput.__init__))
    as [Hc|[msg Hc]]; rewrite Hc; [|done].
  assert (Hcheck : (check_download c (mkWorld f d evs PlymouthOutput.__init__)).1
                   = Ok tt) by by rewrite Hc.
  destruct (run_download_after_guard c _ Hcheck) as (n & -> & _).
  cbn [resolving when]. wsimpl.
  assert (Hst : field "upgrade" "status" (downloading_record c d)
                = on_disk "upgrade" "status" f)
    by (by rewrite downloading_record_other, Hd).
  unfold transaction, run_transaction. rewrite Ha.
  destruct tx as [e|install_set]; [by unfold on_disk|].
  destruct (has_kernel install_set) eqn:Hk.
  - rewrite transaction_download_ok by done. unfold on_disk. wsimpl.
    cbn [persisted statefile set_statefile marker nodes]. split; [done|].
    destruct (complete_of_fields c (downloading_record c d)) as (_ & _ & H3).
    by rewrite H3.
  - unfold transaction_download, bind. rewrite Hk. by unfold on_disk.
Qed.

(** ** More on the reboot and upgrade phases *)

Lemma on_disk_doc f d sec opt :
  statefile f = Some (Doc d) → on_disk sec opt f = field sec opt d.
Proof. intros Hf. unfold on_disk, persisted. by rewrite Hf. Qed.

(** What a successful reboot phase found and what it leaves. *)
Lemma reboot_phase_ok c tx w w' :
  opts_action c = Reboot →
  phase c tx w = (Ok tt, w') →
  ∃ t es,
    marker (fs w) = None
    ∧ field "download" "status" (_data w) = VStr "complete"
    ∧ field "download" "datadir" (_data w) = VStr t
    ∧ nodes (fs w) !! t = Some (Dir es)
    ∧ marker (fs w') = Some (MLink t)
    ∧ statefile (fs w') = Some (Doc (_data w'))
    ∧ field "upgrade" "status" (_data w') = VStr "ready"
    ∧ ∀ sec opt, (sec, opt) ≠ ("upgrade", "status") →
                 field sec opt (_data w') = field sec opt (_data w).
Proof.
  intros Ha. unfold phase, bind, doCheck, run. rewrite Ha.
  rewrite check_reboot_eq. unfold eq_str.
  case_bool_decide as Hst; [|done].
  destruct (marker (fs w)) as [m|] eqn:Hm; wsimpl; [done|].
  rewrite run_reboot_eq. wsimpl. rewrite Hm, field_touched.
  destruct (field "download" "datadir" (_data w)) as [|b|t] eqn:Hdd; try done.
  destruct (link_target_error t); [done|].
  destruct (nodes (fs w) !! t) as [[es|]|] eqn:Hn; try done.
  cbn [resolving when]. unfold ret. intros [= <-].
  exists t, es. wsimpl. repeat split; try done.
  - apply field_assign_eq.
  - intros sec opt Hne. rewrite field_assign_ne by done.
    by rewrite !field_touched.
Qed.

(** After a reboot phase that succeeded the upgrade is scheduled, and a
    second reboot invocation is refused as such; it changes nothing on
    disk. *)
Theorem reboot_twice_is_refused (c c2 : command) (tx tx2 : transaction_outcome)
    (w w' : world) :
  opts_action c = Reboot →
  phase c tx w = (Ok tt, w') →
  opts_action c2 = Reboot →
  ∃ w2, invoke c2 tx2 (boot (fs w'))
        = (Raise (CliError "upgrade is already scheduled"), w2)
        ∧ fs w2 = fs w'.
Proof.
  intros Ha Hok Ha2.
  destruct (reboot_phase_ok c tx w w' Ha Hok)
    as (t & es & _ & Hst & _ & _ & Hm & Hf & _ & Hother).
  destruct (invoke_eq c2 tx2 (fs w')) as (d & evs & -> & Hd); [by rewrite Hf|].
  unfold phase, bind, doCheck. rewrite Ha2, check_reboot_eq. wsimpl.
  rewrite Hd, (on_disk_doc _ _ _ _ Hf), Hother, Hst, Hm by done.
  by eexists.
Qed.

(** After a reboot phase that succeeded, the upgrade invocation of the
    next boot gets past its guard: the state it loads says ['ready'] and
    the link leads to the recorded data directory. *)
Theorem upgrade_guard_passes_after_reboot (c c2 : command)
    (tx tx2 : transaction_outcome) (w w' : world) :
  opts_action c = Reboot →
  phase c tx w = (Ok tt, w') →
  opts_action c2 = Upgrade →
  ∃ w0, invoke c2 tx2 (boot (fs w')) = phase c2 tx2 w0
        ∧ fs w0 = fs w'
        ∧ (doCheck c2 w0).1 = Ok tt.
Proof.
  intros Ha Hok Ha2.
  destruct (reboot_phase_ok c tx w w' Ha Hok)
    as (t & es & _ & _ & Hdd & _ & Hm & Hf & Hready & Hother).
  destruct (invoke_eq c2 tx2 (fs w')) as (d & evs & -> & Hd); [by rewrite Hf|].
  eexists. split; [reflexivity|]. split; [done|].
  unfold doCheck. rewrite Ha2, check_upgrade_eq. wsimpl.
  rewrite !Hd, !(on_disk_doc _ _ _ _ Hf), Hready, Hm, Hother, Hdd by done.
  cbn [eq_str]. unfold eq_str.
  by rewrite !bool_decide_eq_true_2.
Qed.

Lemma add_rpms_eq files w d :
  field "download" "datadir" (_data w) = VStr d →
  ∃ d', add_rpms files w
        = (Ok tt, mkWorld (fs w) d'
                    (trace w ++ map (λ f, AddRemoteRpm (path_join d f))
                                    (List.filter (endswith ".rpm") files))
                    (plymouth w))
        ∧ ∀ sec opt, field sec opt d' = field sec opt (_data w).
Proof.
  revert w. induction files as [|f files IH]; intros w Hd.
  - exists (_data w). simpl. rewrite app_nil_r. by destruct w.
  - simpl. unfold bind at 1.
    destruct (endswith ".rpm" f).
    + unfold bind at 1, State.get, State.datadir, State._prop.
      rewrite getprop_eq, Hd. cbn [join_value]. unfold bind, ret, call, modify.
      wsimpl.
      match goal with |- context [add_rpms files ?w1] =>
        destruct (IH w1) as (d' & -> & Hd')
      end.
      { wsimpl. by rewrite field_touched. }
      exists d'. wsimpl. split.
      * simpl. by rewrite <- (assoc_L app).
      * intros. rewrite Hd'. wsimpl. apply field_touched.
    + unfold ret. destruct (IH w Hd) as (d' & -> & Hd'). by exists d'.
Qed.

(** *** The calls to plymouth *)

(** When the binary can be started, a call on the [Plymouth] object is
    what [_plymouth] does with the exit statuses. *)
Lemma Plymouth_started c cmd args w :
  (∀ n, is_Some (plymouth_spawn c n)) →
  Plymouth__plymouth c cmd args w =
  let r := PlymouthOutput._plymouth (PlymouthOutput.exit0 (plymouth_spawn c))
             cmd args (plymouth w) in
  (Ok r.1, set_plymouth r.2 w).
Proof.
  intros Hsp.
  unfold Plymouth__plymouth, PlymouthOutput._plymouth_exn,
    PlymouthOutput.would_run, PlymouthOutput._plymouth.
  destruct (_ || _); [|done].
  by destruct (Hsp (length (PlymouthOutput.ran (plymouth w)))) as [b ->].
Qed.

(** In general a call on the object answers, or raises the [OSError] of a
    binary that is not there; the file system, the state and the calls
    to dnf are not its business. *)
Lemma Plymouth_step {B} c cmd args (k : bool → M B) w
    (Q : result B * world → Prop) :
  Q (Raise (OSError ENOENT), set_plymouth (plymouth w) w) →
  (∀ b p, Q (k b (set_plymouth p w))) →
  Q (bind (Plymouth__plymouth c cmd args) k w).
Proof.
  intros Hraise Hok. unfold bind, Plymouth__plymouth.
  destruct (PlymouthOutput._plymouth_exn _ _ _ _) as [[e|b] p] eqn:E; [|apply Hok].
  unfold PlymouthOutput._plymouth_exn in E.
  destruct (PlymouthOutput.would_run _ _ _); [|done].
  destruct (plymouth_spawn c _); [|by injection E as <- <-].
  by destruct (PlymouthOutput._plymouth _ _ _ _).
Qed.

Ltac plymouth_step :=
  match goal with
  | |- context [bind (Plymouth__plymouth ?c ?cmd ?args) ?k ?w] =>
      pattern (bind (Plymouth__plymouth c cmd args) k w);
      apply Plymouth_step; [|intros ? ?]
  end.

(** *** The upgrade phase, step by step *)

Lemma sack_setup_ok c w d es :
  field "download" "datadir" (_data w) = VStr d →
  nodes (fs w) !! d = Some (Dir es) →
  ∃ w', sack_setup c w = (Ok tt, w')
        ∧ fs w' = fs w
        ∧ (∀ sec opt, field sec opt (_data w') = field sec opt (_data w))
        ∧ trace w' =
          (trace w
           ++ map (λ f, AddRemoteRpm (path_join d f))
                  (List.filter (endswith ".rpm") (map_to_list es).*1)
           ++ [if truthy (field "upgrade" "distro-sync" (_data w))
               then DistroSync else UpgradeAll])%list
        ∧ plymouth w' = plymouth w.
Proof.
  intros Hd Hn.
  unfold State.get, State.datadir, State.distro_sync, State._prop.
  erewrite bind_ok by apply getprop_eq. rewrite Hd. cbn [listdir_value].
  erewrite bind_ok by (unfold listdir; wsimpl; rewrite Hn; reflexivity).
  match goal with |- context [add_rpms ?files] =>
    match goal with |- context [bind _ _ ?w2] =>
      destruct (add_rpms_eq files w2 d) as (d' & Hadd & Hd')
    end
  end.
  { wsimpl. by rewrite field_touched. }
  erewrite bind_ok by exact Hadd.
  erewrite bind_ok by apply getprop_eq. wsimpl.
  rewrite Hd'. wsimpl. rewrite field_touched.
  assert (Hend : ∀ ev, ∃ w',
    call ev
      (set_data (touched "upgrade" d')
         (mkWorld (fs w) d'
            (trace w ++ map (λ f, AddRemoteRpm (path_join d f))
                            (List.filter (endswith ".rpm") (map_to_list es).*1))
            (plymouth w)))
    = (Ok tt, w')
    ∧ fs w' = fs w
    ∧ (∀ sec opt, field sec opt (_data w') = field sec opt (_data w))
    ∧ trace w' = (trace w
         ++ map (λ f, AddRemoteRpm (path_join d f))
                (List.filter (endswith ".rpm") (map_to_list es).*1)
         ++ [ev])%list
    ∧ plymouth w' = plymouth w).
  { intros ev. eexists. split; [reflexivity|]. wsimpl.
    repeat split; try done.
    - intros. rewrite field_touched, Hd'. wsimpl. by rewrite field_touched.
    - by rewrite <- !(assoc_L app). }
  destruct (truthy _); apply Hend.
Qed.

Lemma sack_setup_no_dir c w t :
  field "download" "datadir" (_data w) = VStr t →
  (∀ es, nodes (fs w) !! t ≠ Some (Dir es)) →
  ∃ e w', sack_setup c w = (Raise (OSError e), w') ∧ fs w' = fs w.
Proof.
  intros Hd Hn.
  unfold State.get, State.datadir, State._prop.
  erewrite bind_ok by apply getprop_eq. rewrite Hd. cbn [listdir_value].
  destruct (nodes (fs w) !! t) as [[es|]|] eqn:Hnt; [by destruct (Hn es)|..].
  - exists ENOTDIR. eexists. split.
    + apply bind_raise. unfold listdir. wsimpl. rewrite Hnt. reflexivity.
    + done.
  - exists ENOENT. eexists. split.
    + apply bind_raise. unfold listdir. wsimpl. rewrite Hnt. reflexivity.
    + done.
Qed.

(** [run_upgrade] up to its calls to plymouth: the marker is removed and
    ['incomplete'] is committed. *)
Lemma run_upgrade_start c w :
  (∀ es', marker (fs w) ≠ Some (MDir es')) →
  ∃ w1, run_upgrade c w
        = (Plymouth_set_mode c "updates" ;;
           Plymouth_progress c 0 ;;
           Plymouth_message c "Starting system upgrade. This will take a while." ;;
           sack_setup c) w1
        ∧ marker (fs w1) = None
        ∧ nodes (fs w1) = nodes (fs w)
        ∧ statefile (fs w1)
          = Some (Doc (assign "upgrade" "status" (VStr "incomplete") (_data w)))
        ∧ _data w1 = assign "upgrade" "status" (VStr "incomplete") (_data w)
        ∧ trace w1 = trace w
        ∧ plymouth w1 = plymouth w.
Proof.
  intros Hm.
  destruct (unlink_f_magic_eq w Hm)
    as (w1 & Hu & Hm1 & Hs1 & Hn1 & Hd1 & Ht1 & Hp1).
  unfold run_upgrade.
  erewrite bind_ok by exact Hu.
  erewrite bind_ok by (apply with_ok, setprop_eq).
  eexists. split; [reflexivity|]. wsimpl.
  by rewrite Hd1.
Qed.

Lemma run_upgrade_ok (c : command) (w : world)
    (d : string) (es : gmap string string) :
  (∀ n, is_Some (plymouth_spawn c n)) →
  (∀ es', marker (fs w) ≠ Some (MDir es')) →
  field "download" "datadir" (_data w) = VStr d →
  nodes (fs w) !! d = Some (Dir es) →
  ∃ w', run_upgrade c w = (Ok tt, w')
        ∧ marker (fs w') = None
        ∧ nodes (fs w') = nodes (fs w)
        ∧ statefile (fs w')
          = Some (Doc (assign "upgrade" "status" (VStr "incomplete") (_data w)))
        ∧ trace w' =
          (trace w
           ++ map (λ f, AddRemoteRpm (path_join d f))
                  (List.filter (endswith ".rpm") (map_to_list es).*1)
           ++ [if truthy (field "upgrade" "distro-sync" (_data w))
               then DistroSync else UpgradeAll])%list
        ∧ plymouth w' =
          PlymouthOutput.serve_all (PlymouthOutput.exit0 (plymouth_spawn c))
            upgrade_banner (plymouth w).
Proof.
  intros Hsp Hm Hd Hn.
  destruct (run_upgrade_start c w Hm)
    as (w1 & -> & Hm1 & Hn1 & Hs1 & Hd1 & Ht1 & Hp1).
  unfold Plymouth_set_mode, Plymouth_progress, Plymouth_message.
  do 3 (erewrite bind_ok by (by apply Plymouth_started)).
  match goal with |- context [bind _ _ ?w2] =>
    destruct (sack_setup_ok c w2 d es) as (w' & -> & Hf' & Hd' & Ht' & Hp')
  end.
  { wsimpl. by rewrite Hd1, field_assign_ne. }
  { wsimpl. by rewrite Hn1. }
  exists w'. split; [done|]. rewrite Hf', Ht', Hp'. wsimpl.
  rewrite Hd1, field_assign_ne, Ht1, Hp1 by done.
  done.
Qed.

(** [run_upgrade], when nothing stands in its way (whatever sits at
    [MAGIC_SYMLINK] can be unlinked, the plymouth binary can be started,
    and the recorded data directory is there): it succeeds, removes the
    marker, commits [upgrade.status = 'incomplete'], asks plymouth for
    the updates mode, progress 0 and the starting message, and hands dnf
    exactly the files of the data directory whose names end in [.rpm],
    each joined to the data directory, in the order [os.listdir] gave
    them, before marking the world in the mode the state records
    (distro-sync or plain upgrade). *)
Theorem run_upgrade_prepares_transaction (c : command) (w : world)
    (d : string) (es : gmap string string) :
  (∀ n, is_Some (plymouth_spawn c n)) →
  (∀ es', marker (fs w) ≠ Some (MDir es')) →
  field "download" "datadir" (_data w) = VStr d →
  nodes (fs w) !! d = Some (Dir es) →
  ∃ w' files,
    run_upgrade c w = (Ok tt, w')
    ∧ marker (fs w') = None
    ∧ nodes (fs w') = nodes (fs w)
    ∧ on_disk "upgrade" "status" (fs w') = VStr "incomplete"
    ∧ plymouth w' =
      PlymouthOutput.serve_all (PlymouthOutput.exit0 (plymouth_spawn c))
        upgrade_banner (plymouth w)
    ∧ files ≡ₚ List.filter (endswith ".rpm") (map_to_list es).*1
    ∧ trace w' =
      (trace w
       ++ map (λ f, AddRemoteRpm (path_join d f)) files
       ++ [if truthy (field "upgrade" "distro-sync" (_data w))
           then DistroSync else UpgradeAll])%list.
Proof.
  intros Hsp Hm Hd Hn.
  destruct (run_upgrade_ok c w d es Hsp Hm Hd Hn)
    as (w' & H1 & H2 & H3 & H4 & H5 & H6).
  exists w', (List.filter (endswith ".rpm") (map_to_list es).*1).
  repeat split; try done.
  rewrite (on_disk_doc _ _ _ _ H4). apply field_assign_eq.
Qed.

(** Without those conditions: [run_upgrade] either stops with the
    [OSError] of plymouth or of [os.listdir], or it comes through; either
    way the marker is gone and ['incomplete'] is on disk. *)
Lemma run_upgrade_cases c w t :
  (∀ es', marker (fs w) ≠ Some (MDir es')) →
  field "download" "datadir" (_data w) = VStr t →
  (∃ e w', run_upgrade c w = (Raise (OSError e), w')
           ∧ marker (fs w') = None
           ∧ statefile (fs w')
             = Some (Doc (assign "upgrade" "status" (VStr "incomplete") (_data w))))
  ∨ (∃ es w', nodes (fs w) !! t = Some (Dir es)
              ∧ run_upgrade c w = (Ok tt, w')
              ∧ marker (fs w') = None
              ∧ nodes (fs w') = nodes (fs w)
              ∧ statefile (fs w')
                = Some (Doc (assign "upgrade" "status" (VStr "incomplete") (_data w)))
              ∧ (∀ sec opt, field sec opt (_data w')
                            = field sec opt (assign "upgrade" "status"
                                                    (VStr "incomplete") (_data w)))).
Proof.
  intros Hm Hd.
  destruct (run_upgrade_start c w Hm)
    as (w1 & -> & Hm1 & Hn1 & Hs1 & Hd1 & Ht1 & Hp1).
  unfold Plymouth_set_mode, Plymouth_progress, Plymouth_message.
  do 3 (plymouth_step; [left; by eexists _, _|]).
  match goal with |- context [bind _ _ ?w2] => set (W := w2) end.
  assert (HdW : field "download" "datadir" (_data W) = VStr t)
    by (subst W; wsimpl; by rewrite Hd1, field_assign_ne).
  destruct (nodes (fs w) !! t) as [[es|]|] eqn:Hn.
  - right. destruct (sack_setup_ok c W t es HdW) as (w' & -> & Hf' & Hd' & _).
    { subst W. wsimpl. by rewrite Hn1. }
    exists es, w'. rewrite Hf'. subst W. wsimpl.
    repeat split; try done. intros. rewrite Hd'. wsimpl. by rewrite Hd1.
  - left. destruct (sack_setup_no_dir c W t HdW) as (e & w' & -> & Hf').
    { intros es. subst W. wsimpl. by rewrite Hn1, Hn. }
    exists e, w'. by rewrite Hf'.
  - left. destruct (sack_setup_no_dir c W t HdW) as (e & w' & -> & Hf').
    { intros es. subst W. wsimpl. by rewrite Hn1, Hn. }
    exists e, w'. by rewrite Hf'.
Qed.

Lemma check_upgrade_passed c w :
  (check_upgrade c w).1 = Ok tt →
  ∃ t, check_upgrade c w
       = (Ok tt, set_data (touched "download" (touched "upgrade" (_data w))) w)
       ∧ marker (fs w) = Some (MLink t)
       ∧ field "download" "datadir" (_data w) = VStr t
       ∧ field "upgrade" "status" (_data w) = VStr "ready".
Proof.
  rewrite check_upgrade_eq. cbn zeta. unfold eq_str.
  case_bool_decide as Hst; [|done].
  destruct (marker (fs w)) as [[t|es|]|]; try done.
  case_bool_decide as Hdd; [|done].
  intros _. by exists t.
Qed.

Lemma run_clean_after_upgrade c w t es :
  field "download" "datadir" (_data w) = VStr t →
  nodes (fs w) !! t = Some (Dir es) →
  ∃ n tr, run_clean c w
          = (Ok tt, mkWorld (mkFs None (marker (fs w)) n) ∅ tr (plymouth w))
          ∧ (t ≠ "" → n !! t = Some (Dir ∅)).
Proof.
  intros Hd Hn. destruct (decide (t = "")) as [->|Ht].
  - rewrite run_clean_nothing_to_purge by by rewrite Hd.
    eexists _, _. split; [reflexivity|done].
  - rewrite (run_clean_purges c w t es) by done.
    eexists _, _. split; [reflexivity|]. intros _. apply lookup_insert_eq.
Qed.

(** Where an upgrade phase that got past its guard can end. *)
Lemma upgrade_phase_cases c tx w :
  opts_action c = Upgrade →
  (doCheck c w).1 = Ok tt →
  ∃ t, field "download" "datadir" (_data w) = VStr t
       ∧ ((∃ e w' d, phase c tx w = (Raise e, w')
                     ∧ marker (fs w') = None
                     ∧ statefile (fs w') = Some (Doc d)
                     ∧ field "upgrade" "status" d = VStr "incomplete")
          ∨ (∃ install_set w', tx = TxDone install_set
                     ∧ phase c tx w = (Ok tt, w')
                     ∧ marker (fs w') = None
                     ∧ statefile (fs w') = None
                     ∧ _data w' = ∅
                     ∧ (t ≠ "" → nodes (fs w') !! t = Some (Dir ∅))
                     ∧ last (trace w') = Some (SystemctlReboot (fs w')))).
Proof.
  intros Ha Hcheck. unfold doCheck in Hcheck. rewrite Ha in Hcheck.
  destruct (check_upgrade_passed c w Hcheck) as (t & Hc & Hm & Hd & _).
  exists t. split; [done|].
  unfold phase, doCheck, run. rewrite Ha.
  erewrite bind_ok by exact Hc.
  set (w0 := set_data (touched "download" (touched "upgrade" (_data w))) w).
  assert (Hm0 : ∀ es', marker (fs w0) ≠ Some (MDir es'))
    by (intros es'; subst w0; wsimpl; by rewrite Hm).
  assert (Hd0 : field "download" "datadir" (_data w0) = VStr t)
    by (subst w0; wsimpl; by rewrite !field_touched).
  destruct (run_upgrade_cases c w0 t Hm0 Hd0)
    as [(e & w' & Hr & Hm' & Hs')
       |(es & w3 & Hn & Hr & Hm3 & Hn3 & Hs3 & Hf3)].
  { left. exists (OSError e), w'. eexists.
    split; [by apply bind_raise|]. split; [done|]. split; [exact Hs'|].
    apply field_assign_eq. }
  erewrite bind_ok by exact Hr. cbn [resolving when transaction].
  destruct tx as [e|install_set].
  - left. exists e, w3. eexists. split; [done|]. split; [done|].
    split; [exact Hs3|]. apply field_assign_eq.
  - unfold transaction, run_transaction. rewrite Ha.
    erewrite bind_ok by reflexivity.
    unfold transaction_upgrade, Plymouth_message.
    plymouth_step.
    { left. eexists _, _, _. split; [reflexivity|]. wsimpl.
      split; [done|]. split; [exact Hs3|]. apply field_assign_eq. }
    right.
    match goal with |- context [bind (run_clean c) _ ?w4] =>
      destruct (run_clean_after_upgrade c w4 t es) as (n & tr & Hcl & Hnt)
    end.
    { wsimpl. rewrite Hf3, field_assign_ne by done. exact Hd0. }
    { wsimpl. by rewrite Hn3. }
    erewrite bind_ok by exact Hcl.
    exists install_set. eexists. split; [done|]. split; [reflexivity|].
    unfold reboot. wsimpl. rewrite Hm3. repeat split; try done.
    by rewrite last_snoc.
Qed.

(** On a system where the plymouth binary cannot be started, the upgrade
    invocation of the boot after [reboot] gets past its guard, removes
    the marker, commits ['incomplete'] and then stops at its first call
    to plymouth with the [OSError] of [subprocess.call]: no package is
    handed to dnf and no directory is touched. *)
Theorem upgrade_without_plymouth_binary (c : command) (tx : transaction_outcome)
    (f : filesystem) (d : record) (t : string) :
  opts_action c = Upgrade →
  statefile f = Some (Doc d) →
  field "upgrade" "status" d = VStr "ready" →
  marker f = Some (MLink t) →
  field "download" "datadir" d = VStr t →
  plymouth_spawn c 0 = None →
  ∃ w', invoke c tx (boot f) = (Raise (OSError ENOENT), w')
        ∧ marker (fs w') = None
        ∧ nodes (fs w') = nodes f
        ∧ on_disk "upgrade" "status" (fs w') = VStr "incomplete"
        ∧ (∀ path, AddRemoteRpm path ∉ trace w')
        ∧ plymouth w' = PlymouthOutput.__init__.
Proof.
  intros Ha Hf Hst Hm Hdd Hsp.
  unfold invoke. erewrite bind_ok by (rewrite init_eq; simpl; by rewrite Hf).
  assert (∃ evs, configure c (set_data d (boot f))
                 = (Ok tt, mkWorld f (touched "download" d) evs
                                   PlymouthOutput.__init__)
                 ∧ ∀ path, AddRemoteRpm path ∉ evs) as (evs & Hconf & Hevs).
  { unfold configure. rewrite Ha.
    unfold configure_upgrade, demand, call, bind, modify, emit, State.get,
      State.datadir, State._prop; simpl.
    rewrite getprop_eq; simpl.
    eexists. split; [reflexivity|]. intros path Hin.
    repeat (apply elem_of_cons in Hin as [Hin|Hin]; [discriminate|]).
    by apply elem_of_nil in Hin. }
  erewrite bind_ok by exact Hconf.
  unfold phase, doCheck, run. rewrite Ha.
  erewrite bind_ok; cycle 1.
  { rewrite check_upgrade_eq. wsimpl. rewrite !field_touched, Hst, Hm, Hdd.
    cbn [eq_str]. unfold eq_str. rewrite !bool_decide_eq_true_2 by done.
    reflexivity. }
  match goal with |- context [bind (run_upgrade c) _ ?w0] =>
    destruct (run_upgrade_start c w0)
      as (w1 & Hr & Hm1 & Hn1 & Hs1 & Hd1 & Ht1 & Hp1)
  end.
  { intros es'. wsimpl. by rewrite Hm. }
  cbn [fs _data trace plymouth set_data set_fs set_plymouth emit modify]
    in Hn1, Ht1, Hp1.
  eexists. split.
  - apply bind_raise. rewrite Hr. apply bind_raise.
    unfold Plymouth_set_mode, Plymouth__plymouth, PlymouthOutput._plymouth_exn,
      PlymouthOutput.would_run.
    rewrite Hp1. cbn. rewrite Hsp. reflexivity.
  - wsimpl. rewrite Hm1, Hn1, Ht1, (on_disk_doc _ _ _ _ Hs1).
    rewrite field_assign_eq. by repeat split.
Qed.


(** An upgrade phase that got past its guard and whose transaction
    succeeds ends with the clean phase and the restart: no state file,
    no marker, the recorded data directory empty, and the restart as the
    last call, made on the disk as the phase leaves it. *)
Theorem successful_upgrade_cleans_up (c : command) (install_set : list string)
    (w w' : world) :
  opts_action c = Upgrade →
  (doCheck c w).1 = Ok tt →
  phase c (TxDone install_set) w = (Ok tt, w') →
  statefile (fs w') = None
  ∧ marker (fs w') = None
  ∧ _data w' = ∅
  ∧ (∃ t, field "download" "datadir" (_data w) = VStr t
          ∧ (t ≠ "" → nodes (fs w') !! t = Some (Dir ∅)))
  ∧ last (trace w') = Some (SystemctlReboot (fs w')).
Proof.
  intros Ha Hcheck Hph.
  destruct (upgrade_phase_cases c (TxDone install_set) w Ha Hcheck)
    as (t & Hd & [(e' & w1 & d & H1 & _)|(s & w1 & _ & H1 & Hm & Hs & He & Hn & Hl)]);
    rewrite Hph in H1; [done|].
  injection H1 as <-.
  repeat split; try done. by exists t.
Qed.

(** A recorded data directory that [os.symlink] does not take as a
    target (the empty string, as after [download --datadir=]; a name with
    a NUL in it; a name too long): [run_reboot] stops there, and no link
    is made. *)
Lemma run_reboot_bad_target c w t e :
  field "download" "datadir" (_data w) = VStr t →
  link_target_error t = Some e →
  (run_reboot c w).1 = Raise e ∧ fs (run_reboot c w).2 = fs w.
Proof. intros Hd Ht. rewrite run_reboot_eq. cbn zeta. by rewrite Hd, Ht. Qed.

(** [run_reboot] makes the link before it writes the flag file through
    it.  When the recorded data directory is a name [os.symlink] takes
    as a target but is not there, the link is made and the flag file
    cannot be opened: the reboot invocation fails with [IOError], nothing
    is committed, and the link stays behind.  From then on a reboot
    invocation is refused as already scheduled. *)
Theorem reboot_without_datadir_leaves_marker (c c2 : command)
    (tx tx2 : transaction_outcome) (f : filesystem) (d : record) (t : string) :
  opts_action c = Reboot →
  statefile f = Some (Doc d) →
  field "download" "status" d = VStr "complete" →
  marker f = None →
  field "download" "datadir" d = VStr t →
  link_target_error t = None →
  (∀ es, nodes f !! t ≠ Some (Dir es)) →
  opts_action c2 = Reboot →
  ∃ e w', invoke c tx (boot f) = (Raise (IOError e), w')
          ∧ fs w' = set_marker (Some (MLink t)) f
          ∧ ∃ w2, invoke c2 tx2 (boot (fs w'))
                  = (Raise (CliError "upgrade is already scheduled"), w2)
                  ∧ fs w2 = fs w'.
Proof.
  intros Ha Hf Hst Hm Hdd Hlt Hn Ha2.
  destruct (invoke_eq c tx f) as (d0 & evs & -> & Hd0); [by rewrite Hf|].
  assert (Hfirst : ∃ e w', phase c tx (mkWorld f d0 evs PlymouthOutput.__init__)
                           = (Raise (IOError e), w')
                           ∧ fs w' = set_marker (Some (MLink t)) f).
  { unfold phase, doCheck, run. rewrite Ha.
    erewrite bind_ok; cycle 1.
    { rewrite check_reboot_eq. wsimpl.
      rewrite Hd0, (on_disk_doc _ _ _ _ Hf), Hst, Hm. reflexivity. }
    pose proof (run_reboot_eq c
                  (set_data (touched "download" d0)
                            (mkWorld f d0 evs PlymouthOutput.__init__))) as Hr.
    cbn zeta in Hr.
    cbn [fs _data trace set_data set_fs set_marker marker nodes] in Hr.
    rewrite field_touched, Hd0, (on_disk_doc _ _ _ _ Hf), Hdd, Hlt, Hm in Hr.
    destruct (nodes f !! t) as [[es|]|] eqn:Hnt; [by destruct (Hn es)|..].
    - exists ENOTDIR. eexists. split; [by apply bind_raise|]. done.
    - exists ENOENT. eexists. split; [by apply bind_raise|]. done. }
  destruct Hfirst as (e & w' & -> & Hfs).
  exists e, w'. split; [done|]. split; [done|].
  rewrite Hfs.
  destruct (invoke_eq c2 tx2 (set_marker (Some (MLink t)) f))
    as (d2 & evs2 & -> & Hd2); [by simpl; rewrite Hf|].
  unfold phase, doCheck. rewrite Ha2.
  eexists. split.
  - apply bind_raise. rewrite check_reboot_eq. wsimpl.
    rewrite Hd2. unfold on_disk, persisted. cbn [statefile set_marker].
    rewrite Hf, Hst. reflexivity.
  - done.
Qed.

(** ** These properties at sample inputs *)

(** Plymouth was lost on the first message; three more calls follow. *)
Lemma Plymouth_dead_stays_silent_witness :
  let p := (PlymouthOutput.message (λ _, false) "hello" PlymouthOutput.__init__).2 in
  PlymouthOutput.serve_all (λ _, false)
    [PlymouthOutput.Message "a"; PlymouthOutput.Progress 50;
     PlymouthOutput.SetMode "updates"] p = p.
Proof.
  apply (Plymouth_dead_stays_silent (λ _, false)).
  - reflexivity.
  - repeat constructor; discriminate.
Defined.

Lemma Plymouth_repeat_is_filtered_witness :
  let p := (PlymouthOutput.progress (λ _, true) 10 PlymouthOutput.__init__).2 in
  PlymouthOutput.progress (λ _, true) 10 p = (PlymouthOutput.alive p, p).
Proof.
  apply (Plymouth_repeat_is_filtered (λ _, true) "system-update"
           ["--progress"; "10"] PlymouthOutput.__init__).
  discriminate.
Defined.

(** The first run of the binary fails, the second (the ping) succeeds. *)
Lemma Plymouth_lost_message_not_retried_witness :
  let answers := λ n, negb (Nat.eqb n 0) in
  let p1 := (PlymouthOutput.message answers "Starting" PlymouthOutput.__init__).2 in
  let p2 := (PlymouthOutput.ping answers p1).2 in
  PlymouthOutput.alive p1 = false
  ∧ PlymouthOutput.alive p2 = true
  ∧ PlymouthOutput.message answers "Starting" p2 = (true, p2)
  ∧ PlymouthOutput.ran p2
    = [[PlymouthOutput.PLYMOUTH; "display-message"; "--text"; "Starting"];
       [PlymouthOutput.PLYMOUTH; "--ping"]].
Proof.
  apply (Plymouth_lost_message_not_retried (λ n, negb (Nat.eqb n 0)) "Starting"
           PlymouthOutput.__init__).
  - reflexivity.
  - vm_compute. discriminate.
  - reflexivity.
  - reflexivity.
Defined.

(** Reading [download.status] on a system without state. *)
Lemma State_get_keeps_fields_witness :
  _data (State.getprop "download" "status" (boot fresh_fs)).2 !! "download" = Some ∅
  ∧ _data (State.getprop "download" "status" (boot fresh_fs)).2 !! "upgrade" = None.
Proof.
  destruct (State_get_keeps_fields "download" "status" (boot fresh_fs))
    as (_ & _ & H1 & H2).
  split; [exact H1|]. apply H2. discriminate.
Defined.

Lemma torn_state_file_stops_every_action_witness :
  invoke (sample_command Clean) (TxDone []) (boot (mkFs (Some NotJson) None ∅))
  = (Raise ValueError, boot (mkFs (Some NotJson) None ∅)).
Proof. apply torn_state_file_stops_every_action. reflexivity. Defined.

(** Release 39 asked for on a system that runs 39; and release 40 with
    a plain file where the data directory should be. *)
Lemma download_guard_denials_witness :
  phase (mkCommand Download DEFAULT_DATADIR false (VStr "39") (VStr "39")
                   true true "system-upgrade" "/root" (λ _, Some true) id)
        (TxDone ["kernel"]) (boot fresh_fs)
  = (Raise (CliError RELEASEVER_MSG), boot fresh_fs)
  ∧ phase (sample_command Download) (TxDone ["kernel"])
          (boot (mkFs None None {[ DEFAULT_DATADIR := File ]}))
    = (Raise (CliError "--datadir: File exists"),
       boot (mkFs None None {[ DEFAULT_DATADIR := File ]})).
Proof.
  split.
  - apply (download_guard_denials
             (mkCommand Download DEFAULT_DATADIR false (VStr "39") (VStr "39")
                        true true "system-upgrade" "/root" (λ _, Some true) id));
      reflexivity.
  - apply (download_guard_denials (sample_command Download)); try reflexivity.
    vm_compute. discriminate.
Defined.

Lemma download_commits_complete_witness :
  ∃ w', phase (sample_command Download) (TxDone ["bash"; "kernel-core"])
              (boot fresh_fs) = (Ok tt, w')
        ∧ on_disk "download" "status" (fs w') = VStr "complete"
        ∧ on_disk "upgrade" "distro-sync" (fs w') = VBool false.
Proof.
  destruct (download_commits_complete (sample_command Download)
              ["bash"; "kernel-core"] (boot fresh_fs))
    as (w' & H1 & _ & H2 & _ & _ & H3 & _); [reflexivity..|].
  by exists w'.
Defined.

(** A download started again on a system that is armed. *)
Lemma download_leaves_marker_and_upgrade_status_witness :
  marker (fs (invoke (sample_command Download) (TxFailed (Error "depsolve"))
                     (boot armed_fs)).2) = marker armed_fs
  ∧ on_disk "upgrade" "status"
      (fs (invoke (sample_command Download) (TxFailed (Error "depsolve"))
                  (boot armed_fs)).2)
    = on_disk "upgrade" "status" armed_fs.
Proof. apply download_leaves_marker_and_upgrade_status. reflexivity. Defined.

Lemma reboot_twice_is_refused_witness :
  ∃ w2, invoke (sample_command Reboot) (TxDone []) (boot armed_fs)
        = (Raise (CliError "upgrade is already scheduled"), w2)
        ∧ fs w2 = armed_fs.
Proof.
  apply (reboot_twice_is_refused (sample_command Reboot) (sample_command Reboot)
           (TxDone []) (TxDone [])
           (mkWorld downloaded_fs complete_record [] PlymouthOutput.__init__)
           (mkWorld armed_fs ready_record [SystemctlReboot armed_fs]
                    PlymouthOutput.__init__)).
  - reflexivity.
  - vm_compute. reflexivity.
  - reflexivity.
Defined.

Lemma upgrade_guard_passes_after_reboot_witness :
  ∃ w0, invoke (sample_command Upgrade) (TxDone []) (boot armed_fs)
        = phase (sample_command Upgrade) (TxDone []) w0
        ∧ fs w0 = armed_fs
        ∧ (doCheck (sample_command Upgrade) w0).1 = Ok tt.
Proof.
  apply (upgrade_guard_passes_after_reboot (sample_command Reboot)
           (sample_command Upgrade) (TxDone []) (TxDone [])
           (mkWorld downloaded_fs complete_record [] PlymouthOutput.__init__)
           (mkWorld armed_fs ready_record [SystemctlReboot armed_fs]
                    PlymouthOutput.__init__)).
  - reflexivity.
  - vm_compute. reflexivity.
  - reflexivity.
Defined.

(** The armed system: the data directory holds one package and the flag
    file. *)
Lemma run_upgrade_prepares_transaction_witness :
  ∃ w' files,
    run_upgrade (sample_command Upgrade)
                (mkWorld armed_fs ready_record [] PlymouthOutput.__init__)
    = (Ok tt, w')
    ∧ marker (fs w') = None
    ∧ PlymouthOutput.ran (plymouth w')
      = [[PlymouthOutput.PLYMOUTH; "change-mode"; "--updates"];
         [PlymouthOutput.PLYMOUTH; "system-update"; "--progress"; "0"];
         [PlymouthOutput.PLYMOUTH; "display-message"; "--text";
          "Starting system upgrade. This will take a while."]]
    ∧ files ≡ₚ ["kernel-core-6.8.rpm"]
    ∧ trace w' =
      (map (λ f, AddRemoteRpm (path_join DEFAULT_DATADIR f)) files
       ++ [UpgradeAll])%list.
Proof.
  destruct (run_upgrade_prepares_transaction (sample_command Upgrade)
              (mkWorld armed_fs ready_record [] PlymouthOutput.__init__)
              DEFAULT_DATADIR
              (<[SYSTEMD_FLAG_NAME := "RELEASEVER=40" +:+ LF]>
                 {[ "kernel-core-6.8.rpm" := "rpm" ]}))
    as (w' & files & H1 & H2 & _ & _ & H3 & H4 & H5).
  - intros n. by eexists.
  - intros es'. vm_compute. discriminate.
  - vm_compute. reflexivity.
  - vm_compute. reflexivity.
  - exists w', files. split; [exact H1|]. split; [exact H2|].
    split; [rewrite H3; vm_compute; reflexivity|].
    split; [exact H4|exact H5].
Defined.

(** The armed system, without [/usr/bin/plymouth]. *)
Lemma upgrade_without_plymouth_binary_witness :
  let c := mkCommand Upgrade DEFAULT_DATADIR false (VStr "40") (VStr "39")
                     true true "system-upgrade" "/root" (λ _, None) id in
  ∃ w', invoke c (TxDone ["kernel-core"]) (boot armed_fs)
        = (Raise (OSError ENOENT), w')
        ∧ marker (fs w') = None
        ∧ on_disk "upgrade" "status" (fs w') = VStr "incomplete".
Proof.
  destruct (upgrade_without_plymouth_binary
              (mkCommand Upgrade DEFAULT_DATADIR false (VStr "40") (VStr "39")
                         true true "system-upgrade" "/root" (λ _, None) id)
              (TxDone ["kernel-core"]) armed_fs ready_record DEFAULT_DATADIR)
    as (w' & H1 & H2 & _ & H3 & _).
  - reflexivity.
  - vm_compute. reflexivity.
  - vm_compute. reflexivity.
  - vm_compute. reflexivity.
  - vm_compute. reflexivity.
  - reflexivity.
  - by exists w'.
Defined.


Lemma successful_upgrade_cleans_up_witness :
  let w' := (phase (sample_command Upgrade) (TxDone ["kernel-core"])
                   (mkWorld armed_fs ready_record [] PlymouthOutput.__init__)).2 in
  statefile (fs w') = None
  ∧ marker (fs w') = None
  ∧ nodes (fs w') !! DEFAULT_DATADIR = Some (Dir ∅)
  ∧ last (trace w') = Some (SystemctlReboot (fs w')).
Proof.
  destruct (successful_upgrade_cleans_up (sample_command Upgrade) ["kernel-core"]
              (mkWorld armed_fs ready_record [] PlymouthOutput.__init__)
              (phase (sample_command Upgrade) (TxDone ["kernel-core"])
                     (mkWorld armed_fs ready_record [] PlymouthOutput.__init__)).2)
    as (H1 & H2 & _ & (t & Ht & H3) & H4).
  - reflexivity.
  - vm_compute. reflexivity.
  - vm_compute. reflexivity.
  - vm_compute in Ht. injection Ht as <-.
    split; [exact H1|]. split; [exact H2|]. split; [|exact H4].
    apply H3. discriminate.
Defined.

(** The download is complete on record, but its directory is gone. *)
Lemma reboot_without_datadir_leaves_marker_witness :
  ∃ e w', invoke (sample_command Reboot) (TxDone [])
                 (boot (mkFs (Some (Doc complete_record)) None ∅))
          = (Raise (IOError e), w')
          ∧ marker (fs w') = Some (MLink DEFAULT_DATADIR)
          ∧ on_disk "upgrade" "status" (fs w') = VNone.
Proof.
  destruct (reboot_without_datadir_leaves_marker (sample_command Reboot)
              (sample_command Reboot) (TxDone []) (TxDone [])
              (mkFs (Some (Doc complete_record)) None ∅) complete_record
              DEFAULT_DATADIR)
    as (e & w' & H1 & H2 & _).
  - reflexivity.
  - reflexivity.
  - vm_compute. reflexivity.
  - reflexivity.
  - vm_compute. reflexivity.
  - vm_compute. reflexivity.
  - intros es. vm_compute. discriminate.
  - reflexivity.
  - exists e, w'. split; [exact H1|]. rewrite H2. split; vm_compute; reflexivity.
Defined.
